(** * custos_sdk.client: the CustosNetwork Python client, embedded in Rocq

    The development follows [python/custos_sdk/client.py]:
    - [Py]       the Python built-ins the client calls ([str], [bytes],
                 [bytes.fromhex], [bytes.hex], [bytes.ljust], [str.encode]);
    - [hashlib]  SHA-256, as [hashlib.sha256(..).hexdigest()] computes it;
    - [asyncio]  coroutines as trees of awaited node round-trips, the event
                 loop that drives one of them, and the loop that interleaves two;
    - the client itself: [BLOCK_TYPE_MAP], [InscribeResult], [AttestResult],
      [Custos], [inscribe], [attest], [inscribe_sync], [attest_sync];
    - [json]     [json.dumps] on the dicts of the examples, and the calls
                 the LangGraph and CrewAI examples make.
    Theorems come after the definitions. *)

From Stdlib Require Import NArith ZArith Lia String Ascii.
From Stdlib Require Import Strings.Byte.
From stdpp Require Import base option list gmap.

#[local] Open Scope N_scope.

(** ** Python built-ins *)

Module Py.

(** A Python [str] is a sequence of Unicode code points; [len] counts code
    points. *)
Abbreviation str := (list N).

(** An ASCII literal of the source, as a [str]. *)
Definition lit (s : string) : str :=
  (fun a => N_of_ascii a) <$> list_ascii_of_string s.

Abbreviation bytes := (list byte).

Definition byte_of_N (n : N) : byte :=
  default x00 (Byte.of_N (n mod 256)).

(** [s.startswith(p)] *)
Fixpoint startswith (s p : str) : bool :=
  match p, s with
  | [], _ => true
  | c :: p', d :: s' => (c =? d) && startswith s' p'
  | _ :: _, [] => false
  end.

(** [s.removeprefix(p)]: drops [p] once when [s] starts with it, and returns
    [s] unchanged otherwise. *)
Definition removeprefix (s p : str) : str :=
  if startswith s p then drop (length p) s else s.

(** [Py_ISSPACE]: the ASCII whitespace [bytes.fromhex] skips. *)
Definition isspace (c : N) : bool :=
  ((9 <=? c) && (c <=? 13)) || (c =? 32).

(** [_PyLong_DigitValue] restricted to base 16: the value of a hexadecimal
    digit of either case, [None] for every other code point. *)
Definition digit_value (c : N) : option N :=
  if (48 <=? c) && (c <=? 57) then Some (c - 48)
  else if (97 <=? c) && (c <=? 102) then Some (c - 87)
  else if (65 <=? c) && (c <=? 70) then Some (c - 55)
  else None.

Definition isxdigit (c : N) : bool :=
  match digit_value c with Some _ => true | None => false end.

(** [bytes.fromhex(s)]: two hexadecimal digits per byte; ASCII whitespace is
    skipped before a byte, never between the two digits of one. [None] is
    the [ValueError] the built-in raises. *)
Fixpoint fromhex (s : str) : option bytes :=
  match s with
  | [] => Some []
  | c :: rest =>
      if isspace c then fromhex rest
      else
        match digit_value c with
        | None => None
        | Some top =>
            match rest with
            | [] => None
            | d :: rest' =>
                match digit_value d with
                | None => None
                | Some bot =>
                    match fromhex rest' with
                    | Some bs => Some (byte_of_N (N.shiftl top 4 + bot) :: bs)
                    | None => None
                    end
                end
            end
        end
  end.

(** One lowercase hexadecimal digit, as [bytes.hex] prints it. *)
Definition hexdigit (v : N) : N :=
  if v <? 10 then 48 + v else 87 + v.

(** [b.hex()] *)
Fixpoint hex (b : bytes) : str :=
  match b with
  | [] => []
  | x :: b' =>
      hexdigit (N.shiftr (Byte.to_N x) 4)
        :: hexdigit (N.land (Byte.to_N x) 15) :: hex b'
  end.

(** [b.ljust(width, fill)]: pads on the right up to [width]; a longer [b] is
    returned as it is. *)
Definition ljust (b : bytes) (width : nat) (fill : byte) : bytes :=
  b ++ replicate (width - length b) fill.

(** UTF-8 of one code point; [None] for a surrogate or a number that is no
    code point, where [str.encode] raises [UnicodeEncodeError]. *)
Definition utf8_char (c : N) : option bytes :=
  if c <? 0x80 then Some [byte_of_N c]
  else if c <? 0x800 then
    Some [byte_of_N (N.lor 0xC0 (N.shiftr c 6));
          byte_of_N (N.lor 0x80 (N.land c 0x3F))]
  else if c <? 0x10000 then
    if (0xD800 <=? c) && (c <=? 0xDFFF) then None
    else
      Some [byte_of_N (N.lor 0xE0 (N.shiftr c 12));
            byte_of_N (N.lor 0x80 (N.land (N.shiftr c 6) 0x3F));
            byte_of_N (N.lor 0x80 (N.land c 0x3F))]
  else if c <? 0x110000 then
    Some [byte_of_N (N.lor 0xF0 (N.shiftr c 18));
          byte_of_N (N.lor 0x80 (N.land (N.shiftr c 12) 0x3F));
          byte_of_N (N.lor 0x80 (N.land (N.shiftr c 6) 0x3F));
          byte_of_N (N.lor 0x80 (N.land c 0x3F))]
  else None.

(** [s.encode()], the default encoding being UTF-8. *)
Fixpoint encode (s : str) : option bytes :=
  match s with
  | [] => Some []
  | c :: s' =>
      match utf8_char c, encode s' with
      | Some bs, Some rest => Some (bs ++ rest)
      | _, _ => None
      end
  end.

End Py.

(** ** hashlib.sha256 *)

Module hashlib.

Definition add32 (x y : N) : N := (x + y) mod 2 ^ 32.

Definition rotr (n x : N) : N :=
  N.lor (N.shiftr x n) (N.land (N.shiftl x (32 - n)) 0xFFFFFFFF).

Definition Ch (x y z : N) : N :=
  N.lxor (N.land x y) (N.land (N.lxor x 0xFFFFFFFF) z).

Definition Maj (x y z : N) : N :=
  N.lxor (N.lxor (N.land x y) (N.land x z)) (N.land y z).

Definition Sigma0 (x : N) : N :=
  N.lxor (N.lxor (rotr 2 x) (rotr 13 x)) (rotr 22 x).

Definition Sigma1 (x : N) : N :=
  N.lxor (N.lxor (rotr 6 x) (rotr 11 x)) (rotr 25 x).

Definition sigma0 (x : N) : N :=
  N.lxor (N.lxor (rotr 7 x) (rotr 18 x)) (N.shiftr x 3).

Definition sigma1 (x : N) : N :=
  N.lxor (N.lxor (rotr 17 x) (rotr 19 x)) (N.shiftr x 10).

(** The first 64 primes. *)
Definition primes : list N :=
  [ 2; 3; 5; 7; 11; 13; 17; 19; 23; 29; 31; 37; 41; 43; 47; 53; 59; 61; 67;
    71; 73; 79; 83; 89; 97; 101; 103; 107; 109; 113; 127; 131; 137; 139; 149;
    151; 157; 163; 167; 173; 179; 181; 191; 193; 197; 199; 211; 223; 227; 229;
    233; 239; 241; 251; 257; 263; 269; 271; 277; 281; 283; 293; 307; 311 ].

(** The integer cube root below [2 ^ bits], one bit at a time from the top. *)
Fixpoint cbrt_bits (bits : nat) (x r : N) : N :=
  match bits with
  | O => r
  | S bits' =>
      let r' := N.lor r (N.shiftl 1 (N.of_nat bits')) in
      cbrt_bits bits' x (if r' * r' * r' <=? x then r' else r)
  end.

(** The round constants: the first 32 bits of the fractional part of the
    cube root of each prime. *)
Definition K : list N :=
  (fun p => cbrt_bits 36 (p * 2 ^ 96) 0 mod 2 ^ 32) <$> primes.

(** The initial hash value: the same of the square root, for the first
    eight primes. *)
Definition H0 : list N :=
  (fun p => N.sqrt (p * 2 ^ 64) mod 2 ^ 32) <$> take 8 primes.

(** Big-endian bytes of a 32-bit word and of the 64-bit bit length. *)
Definition be32 (w : N) : Py.bytes :=
  [ Py.byte_of_N (N.shiftr w 24); Py.byte_of_N (N.shiftr w 16);
    Py.byte_of_N (N.shiftr w 8); Py.byte_of_N w ].

Definition be64 (w : N) : Py.bytes :=
  be32 (N.shiftr w 32) ++ be32 w.

Definition word_of (b3 b2 b1 b0 : byte) : N :=
  N.lor (N.shiftl (Byte.to_N b3) 24)
    (N.lor (N.shiftl (Byte.to_N b2) 16)
       (N.lor (N.shiftl (Byte.to_N b1) 8) (Byte.to_N b0))).

Fixpoint words (b : Py.bytes) : list N :=
  match b with
  | b3 :: b2 :: b1 :: b0 :: b' => word_of b3 b2 b1 b0 :: words b'
  | _ => []
  end.

(** The message, a 1 bit, zero bits up to 56 mod 64 bytes, the bit length. *)
Definition pad (msg : Py.bytes) : Py.bytes :=
  let l := length msg in
  msg ++ [x80] ++ replicate ((64 - (l + 9) mod 64) mod 64)%nat x00
      ++ be64 (8 * N.of_nat l).

Fixpoint blocks (n : nat) (b : Py.bytes) : list (list N) :=
  match n with
  | O => []
  | S n' => words (take 64 b) :: blocks n' (drop 64 b)
  end.

(** The working variables a..h and the sliding window of the message
    schedule, whose head is the word of the current round. *)
Record round_state := RoundState {
  va : N; vb : N; vc : N; vd : N; ve : N; vf : N; vg : N; vh : N;
  window : list N
}.

Definition at_ (w : list N) (i : nat) : N := default 0 (w !! i).

Definition round (s : round_state) (k : N) : round_state :=
  let w := window s in
  let t1 :=
    add32 (add32 (add32 (add32 (vh s) (Sigma1 (ve s)))
                    (Ch (ve s) (vf s) (vg s))) k) (at_ w 0) in
  let t2 := add32 (Sigma0 (va s)) (Maj (va s) (vb s) (vc s)) in
  let next :=
    add32 (add32 (add32 (sigma1 (at_ w 14)) (at_ w 9)) (sigma0 (at_ w 1)))
      (at_ w 0) in
  {| va := add32 t1 t2; vb := va s; vc := vb s; vd := vc s;
     ve := add32 (vd s) t1; vf := ve s; vg := vf s; vh := vg s;
     window := drop 1 w ++ [next] |}.

Definition compress (h : list N) (block : list N) : list N :=
  let s0 :=
    {| va := at_ h 0; vb := at_ h 1; vc := at_ h 2; vd := at_ h 3;
       ve := at_ h 4; vf := at_ h 5; vg := at_ h 6; vh := at_ h 7;
       window := block |} in
  let s := foldl round s0 K in
  zip_with add32 h [va s; vb s; vc s; vd s; ve s; vf s; vg s; vh s].

(** [hashlib.sha256(msg).digest()] *)
Definition sha256 (msg : Py.bytes) : Py.bytes :=
  let p := pad msg in
  let h := foldl compress H0 (blocks (length p / 64) p) in
  mjoin (be32 <$> h).

(** [hashlib.sha256(msg).hexdigest()] *)
Definition hexdigest (msg : Py.bytes) : Py.str :=
  Py.hex (sha256 msg).

End hashlib.

Arguments hashlib.sha256 : simpl never.

(** ** Exceptions

    The client defines no exception class of its own. It raises [ValueError]
    by name, and lets the exceptions of the built-ins and of web3 pass. *)

Inductive value_error :=
| summary_too_long (got : nat)   (* "summary must be <=140 chars (got ..)" *)
| non_hexadecimal.               (* raised by [bytes.fromhex] *)

Inductive exn :=
| ValueError (why : value_error)
| KeyError (key : Py.str)        (* a [dict] subscript with an absent key *)
| UnicodeEncodeError             (* [str.encode] on a lone surrogate *)
| RuntimeError                   (* [asyncio.run] under a running event loop *)
| TimeExhausted                  (* web3: no receipt within the timeout *)
| ABIEncodeError                 (* web3: arguments the ABI cannot encode *)
| Web3Error (code : Z).          (* any other failure of a node round-trip *)

Inductive outcome (A : Type) :=
| Return (a : A)
| Raise (e : exn).
Arguments Return {A} a.
Arguments Raise {A} e.

(** ** web3: what the client sends to the node and what comes back *)

Module web3.

Abbreviation ChecksumAddress := N.

(** The two state-changing functions of [PROXY_ABI], with their inputs. *)
Inductive contract_function :=
| inscribeCycle (blockType : Z) (summary : Py.str) (contentHash : Py.bytes)
| attestProof (agentId : Z) (proofHash : Py.bytes) (valid : bool).

(** The dict passed to [build_transaction]. *)
Record TxParams := {
  from : ChecksumAddress;
  nonce : Z;
  gasPrice : Z
}.

(** What the node contributes to a built transaction. *)
Record TxDefaults := {
  gas : Z;
  chainId : Z
}.

(** The transaction dict [build_transaction] returns. *)
Record TxDict := {
  to : ChecksumAddress;
  data : contract_function;
  params : TxParams;
  defaults : TxDefaults
}.

(** [signed.raw_transaction], kept symbolic: the signing key and the
    transaction that was signed. *)
Record RawTransaction := {
  signer : N;
  payload : TxDict
}.

(** A mined transaction's receipt; [logs] holds the event data the contract
    emitted, among it the [proofHash] and [cycleId] it computed. *)
Record TxReceipt := {
  blockNumber : Z;
  status : Z;
  logs : list Py.bytes
}.

(** One round-trip to the node. *)
Inductive rpc :=
| eth_getTransactionCount (a : ChecksumAddress)
| eth_gasPrice
| eth_estimateGas (contract : ChecksumAddress) (f : contract_function)
    (p : TxParams)
| eth_chainId
| eth_sendRawTransaction (raw : RawTransaction)
| eth_getTransactionReceipt (tx_hash : Py.bytes)
| eth_call_totalCycles (contract : ChecksumAddress).

Definition reply (c : rpc) : Type :=
  match c with
  | eth_getTransactionCount _ => Z
  | eth_gasPrice => Z
  | eth_estimateGas _ _ _ => Z
  | eth_chainId => Z
  | eth_sendRawTransaction _ => Py.bytes
  | eth_getTransactionReceipt _ => option TxReceipt
  | eth_call_totalCycles _ => Z
  end.

(** The node, as the client sees it: an answer to every round-trip, which
    may depend on all the round-trips it has served before. *)
Definition Node : Type := list rpc -> forall c : rpc, outcome (reply c).

End web3.
Export web3.

(** ** asyncio: coroutines and the event loop *)

Module asyncio.

(** A coroutine is finished, has raised, or is suspended on a round-trip
    with the rest of its body waiting for the answer. *)
Inductive coro (A : Type) : Type :=
| Ret (a : A)
| Throw (e : exn)
| Await (c : rpc) (k : reply c -> coro A).
Arguments Ret {A} a.
Arguments Throw {A} e.
Arguments Await {A} c k.

(** [await m] inside a coroutine whose remaining body is [f]. *)
Fixpoint bind {A B : Type} (m : coro A) (f : A -> coro B) : coro B :=
  match m with
  | Ret a => f a
  | Throw e => Throw e
  | Await c k => Await c (fun r => bind (k r) f)
  end.

(** [loop.run_until_complete(m)] from history [h]: every awaited round-trip
    is sent to the node and recorded; an exception of the node is raised
    inside the coroutine, which has no handler, and so ends it. *)
Fixpoint run_until_complete {A : Type} (node : Node) (h : list rpc)
    (m : coro A) : outcome A * list rpc :=
  match m with
  | Ret a => (Return a, h)
  | Throw e => (Raise e, h)
  | Await c k =>
      match node h c with
      | Return r => run_until_complete node (h ++ [c]) (k r)
      | Raise e => (Raise e, h ++ [c])
      end
  end.

(** [asyncio.run(m)]: refuses to start under a running event loop of the
    same thread, and otherwise drives [m] on a loop of its own. *)
Definition run {A : Type} (loop_running : bool) (node : Node)
    (h : list rpc) (m : coro A) : outcome A * list rpc :=
  if loop_running then (Raise RuntimeError, h)
  else run_until_complete node h m.

(** One turn of a task: its pending round-trip is served. *)
Definition step {A : Type} (node : Node) (h : list rpc) (m : coro A)
    : coro A * list rpc :=
  match m with
  | Await c k =>
      match node h c with
      | Return r => (k r, h ++ [c])
      | Raise e => (Throw e, h ++ [c])
      end
  | _ => (m, h)
  end.

(** [asyncio.gather(m1, m2)] on one loop: the two tasks take turns at their
    suspension points, in the order [sched] ([true] for the first task), and
    once [sched] is used up the first task runs to its end, then the second. *)
Fixpoint gather {A B : Type} (sched : list bool) (node : Node)
    (h : list rpc) (m1 : coro A) (m2 : coro B)
    : outcome A * outcome B * list rpc :=
  match sched with
  | [] =>
      let '(r1, h1) := run_until_complete node h m1 in
      let '(r2, h2) := run_until_complete node h1 m2 in
      (r1, r2, h2)
  | true :: sched' =>
      let '(m1', h') := step node h m1 in gather sched' node h' m1' m2
  | false :: sched' =>
      let '(m2', h') := step node h m2 in gather sched' node h' m1 m2'
  end.

End asyncio.
Export asyncio.

#[export] Instance coro_ret : MRet coro := @Ret.
#[export] Instance coro_bind : MBind coro := fun A B f m => bind m f.

(** ** The awaitable calls of [AsyncWeb3] and [eth_account] the client uses *)

Module eth.

(** [Account.from_key(pk)]: the key and the address derived from it. *)
Record LocalAccount := {
  key : N;
  address : ChecksumAddress
}.

Definition get_transaction_count (a : ChecksumAddress) : coro Z :=
  Await (eth_getTransactionCount a) Ret.

Definition gas_price : coro Z :=
  Await eth_gasPrice Ret.

(** Whether the arguments of a call fit the types of [PROXY_ABI]: a
    [uint8], a [string] that UTF-8 can encode and a [bytes32] for
    [inscribeCycle]; a [uint256] and a [bytes32] for [attestProof]. A
    [bytes32] is taken at 32 bytes, the length the client gives it in both
    calls. *)
Definition abi_encodable (f : contract_function) : bool :=
  match f with
  | inscribeCycle blockType summary contentHash =>
      (0 <=? blockType)%Z && (blockType <? 2 ^ 8)%Z
      && match Py.encode summary with Some _ => true | None => false end
      && (length contentHash =? 32)%nat
  | attestProof agentId proofHash _ =>
      (0 <=? agentId)%Z && (agentId <? 2 ^ 256)%Z
      && (length proofHash =? 32)%nat
  end.

(** [contract.functions.f(..).build_transaction(p)]: the arguments are
    encoded for the ABI first, which raises, with nothing sent, when they do
    not fit; the call and [p] are put in the transaction as given, and the
    two fields [p] leaves open are asked of the node, the gas by
    [eth_estimateGas] and then the chain by [eth_chainId]. *)
Definition build_transaction (contract : ChecksumAddress)
    (f : contract_function) (p : TxParams) : coro TxDict :=
  if abi_encodable f then
    gas ← Await (eth_estimateGas contract f p) Ret;
    chain ← Await eth_chainId Ret;
    mret {| to := contract; data := f; params := p;
            defaults := {| gas := gas; chainId := chain |} |}
  else Throw ABIEncodeError.

(** [account.sign_transaction(tx)]: local, no round-trip. *)
Definition sign_transaction (a : LocalAccount) (tx : TxDict)
    : RawTransaction :=
  {| signer := key a; payload := tx |}.

Definition send_raw_transaction (raw : RawTransaction) : coro Py.bytes :=
  Await (eth_sendRawTransaction raw) Ret.

(** [wait_for_transaction_receipt(tx_hash)] with web3's defaults
    ([timeout=120], [poll_latency=0.1]): the receipt is polled until the
    node has one, and [TimeExhausted] is raised when the timeout expires.
    [polls] is the number of polls that are answered before it does. *)
Fixpoint wait_for_transaction_receipt (polls : nat) (tx_hash : Py.bytes)
    : coro TxReceipt :=
  match polls with
  | O => Throw TimeExhausted
  | S polls' =>
      Await (eth_getTransactionReceipt tx_hash)
        (fun r =>
           match r with
           | Some receipt => Ret receipt
           | None => wait_for_transaction_receipt polls' tx_hash
           end)
  end.

(** [contract.functions.totalCycles().call()] *)
Definition totalCycles_call (contract : ChecksumAddress) : coro Z :=
  Await (eth_call_totalCycles contract) Ret.

End eth.

Arguments eth.abi_encodable : simpl never.

(** ** custos_sdk.client *)

Definition PROXY_ADDRESS : ChecksumAddress :=
  0x9B5FD0B02355E954F159F33D7886e4198ee777b9.

Definition BLOCK_TYPE_MAP : gmap (list N) Z :=
  <[Py.lit "build" := 0%Z]>
    (<[Py.lit "research" := 1%Z]>
       (<[Py.lit "market" := 2%Z]>
          (<[Py.lit "system" := 3%Z]>
             (<[Py.lit "governance" := 4%Z]> ∅)))).

Module InscribeResult.
Record t := {
  tx_hash : Py.str;
  proof_hash : Py.str;
  cycle_id : Z;
  network_cycle : Z
}.
End InscribeResult.

Module AttestResult.
Record t := {
  tx_hash : Py.str
}.
End AttestResult.

(** The state [__init__] leaves in a client. *)
Record Custos := {
  _account : eth.LocalAccount;
  _agent_id : Z;
  _proxy : ChecksumAddress
}.

(** A local step that may raise. *)
Definition or_raise {A : Type} (e : exn) (o : option A) : coro A :=
  match o with
  | Some a => Ret a
  | None => Throw e
  end.

Section client.

(** The number of receipt polls the node answers within web3's timeout. *)
Variable polls : nat.

(** Lines 150-152: the digest of the content, through its hexadecimal
    form and back, cut to 32 bytes. *)
Definition content_hash_of (content : Py.str) : coro Py.bytes :=
  encoded ← or_raise UnicodeEncodeError (Py.encode content);
  digest ← or_raise (ValueError non_hexadecimal)
             (Py.fromhex (hashlib.hexdigest encoded));
  mret (take 32 digest).

(** [Custos.inscribe] *)
Definition inscribe (self : Custos) (block summary content : Py.str)
    : coro InscribeResult.t :=
  if (140 <? length summary)%nat
  then Throw (ValueError (summary_too_long (length summary)))
  else
    block_type ← or_raise (KeyError block) (BLOCK_TYPE_MAP !! block);
    content_hash ← content_hash_of content;
    nonce ← eth.get_transaction_count (eth.address (_account self));
    gas_price ← eth.gas_price;
    tx ← eth.build_transaction (_proxy self)
            (inscribeCycle block_type summary content_hash)
            {| from := eth.address (_account self);
               nonce := nonce;
               gasPrice := gas_price |};
    let signed := eth.sign_transaction (_account self) tx in
    tx_hash ← eth.send_raw_transaction signed;
    receipt ← eth.wait_for_transaction_receipt polls tx_hash;
    network_cycle ← eth.totalCycles_call (_proxy self);
    mret {| InscribeResult.tx_hash := Py.hex tx_hash;
            InscribeResult.proof_hash := Py.lit "0x" ++ Py.hex content_hash;
            InscribeResult.cycle_id := blockNumber receipt;
            InscribeResult.network_cycle := network_cycle |}.

(** Lines 184-185: the proof identifier as the 32 bytes [attestProof]
    takes. *)
Definition ph32_of (proof_hash : Py.str) : coro Py.bytes :=
  ph_bytes ← or_raise (ValueError non_hexadecimal)
               (Py.fromhex (Py.removeprefix proof_hash (Py.lit "0x")));
  mret (take 32 (Py.ljust ph_bytes 32 x00)).

(** [Custos.attest] *)
Definition attest (self : Custos) (proof_hash : Py.str) (valid : bool)
    : coro AttestResult.t :=
  ph32 ← ph32_of proof_hash;
  nonce ← eth.get_transaction_count (eth.address (_account self));
  gas_price ← eth.gas_price;
  tx ← eth.build_transaction (_proxy self)
          (attestProof (_agent_id self) ph32 valid)
          {| from := eth.address (_account self);
             nonce := nonce;
             gasPrice := gas_price |};
  let signed := eth.sign_transaction (_account self) tx in
  tx_hash ← eth.send_raw_transaction signed;
  _ ← eth.wait_for_transaction_receipt polls tx_hash;
  mret {| AttestResult.tx_hash := Py.hex tx_hash |}.

(** [Custos.total_cycles] *)
Definition total_cycles (self : Custos) : coro Z :=
  eth.totalCycles_call (_proxy self).

(** [Custos.inscribe_sync] and [Custos.attest_sync]; [loop_running] tells
    whether the calling thread is inside a running event loop. *)
Definition inscribe_sync (loop_running : bool) (node : Node) (h : list rpc)
    (self : Custos) (block summary content : Py.str)
    : outcome InscribeResult.t * list rpc :=
  asyncio.run loop_running node h (inscribe self block summary content).

Definition attest_sync (loop_running : bool) (node : Node) (h : list rpc)
    (self : Custos) (proof_hash : Py.str) (valid : bool)
    : outcome AttestResult.t * list rpc :=
  asyncio.run loop_running node h (attest self proof_hash valid).

End client.

(** ** A simulated node

    It reports as sequence number [5] plus the submissions it has received,
    a gas price of [10], accepts every submission under one fixed transaction
    identifier, has the receipt ready from the [confirm_after]-th poll on, and
    answers [totalCycles] with [42]. Its contract emits a proof hash of its
    own in the receipt's log. *)

Definition is_send (c : rpc) : bool :=
  match c with
  | eth_sendRawTransaction _ => true
  | _ => false
  end.

Definition is_poll (c : rpc) : bool :=
  match c with
  | eth_getTransactionReceipt _ => true
  | _ => false
  end.

Definition count_sends (h : list rpc) : nat :=
  length (List.filter is_send h).

Definition count_polls (h : list rpc) : nat :=
  length (List.filter is_poll h).

Definition sim_tx_id : Py.bytes := replicate 32 "171"%byte.

Definition sim_proof_hash : Py.bytes := replicate 32 "170"%byte.

Definition sim_receipt : TxReceipt :=
  {| blockNumber := 1000; status := 1; logs := [sim_proof_hash] |}.

Definition sim_node (confirm_after : nat) : Node :=
  fun h c =>
    match c return outcome (reply c) with
    | eth_getTransactionCount _ => Return (5 + Z.of_nat (count_sends h))%Z
    | eth_gasPrice => Return 10%Z
    | eth_estimateGas _ _ _ => Return 100000%Z
    | eth_chainId => Return 8453%Z
    | eth_sendRawTransaction _ => Return sim_tx_id
    | eth_getTransactionReceipt _ =>
        if (confirm_after <=? count_polls h)%nat
        then Return (Some sim_receipt)
        else Return None
    | eth_call_totalCycles _ => Return 42%Z
    end.

Definition agent : Custos :=
  {| _account := {| eth.key := 7; eth.address := 0xA11CE |};
     _agent_id := 1;
     _proxy := PROXY_ADDRESS |}.

(** The same node with a contract whose [totalCycles] cannot be read. *)
Definition sim_node_without_counter (confirm_after : nat) : Node :=
  fun h c =>
    match c return outcome (reply c) with
    | eth_call_totalCycles _ => Raise (Web3Error (-32000))
    | c' => sim_node confirm_after h c'
    end.

(** ** The transaction pipeline

    Lines 154-167 of [inscribe] and 187-200 of [attest] are the same sequence
    for a different contract function: fetch the sequence number and the gas
    price, build, sign, submit, wait for the receipt. *)

(** One poll for the receipt of a transaction. *)
Abbreviation poll tx_hash := (eth_getTransactionReceipt tx_hash).

Section pipeline_vocabulary.

Variable polls : nat.
Variable self : Custos.

Abbreviation sender := (eth.address (_account self)).

Definition tx_params (nonce gas_price : Z) : TxParams :=
  {| from := sender; nonce := nonce; gasPrice := gas_price |}.

Definition signed_tx (f : contract_function) (nonce gas_price : Z)
    (d : TxDefaults) : RawTransaction :=
  eth.sign_transaction (_account self)
    {| to := _proxy self; data := f;
       params := tx_params nonce gas_price; defaults := d |}.

(** The round-trips up to and including submission. *)
Definition submission (f : contract_function) (nonce gas_price : Z)
    (d : TxDefaults) : list rpc :=
  [ eth_getTransactionCount sender;
    eth_gasPrice;
    eth_estimateGas (_proxy self) f (tx_params nonce gas_price);
    eth_chainId;
    eth_sendRawTransaction (signed_tx f nonce gas_price d) ].

(** The node answered each of them, with these values. *)
Definition accepted (node : Node) (h : list rpc) (f : contract_function)
    (nonce gas_price : Z) (d : TxDefaults) (tx_hash : Py.bytes) : Prop :=
  node h (eth_getTransactionCount sender) = Return nonce
  /\ node (h ++ take 1 (submission f nonce gas_price d)) eth_gasPrice
     = Return gas_price
  /\ node (h ++ take 2 (submission f nonce gas_price d))
       (eth_estimateGas (_proxy self) f (tx_params nonce gas_price))
     = Return (gas d)
  /\ node (h ++ take 3 (submission f nonce gas_price d)) eth_chainId
     = Return (chainId d)
  /\ node (h ++ take 4 (submission f nonce gas_price d))
       (eth_sendRawTransaction (signed_tx f nonce gas_price d))
     = Return tx_hash.

Definition submit_and_wait (f : contract_function)
    : coro (Py.bytes * TxReceipt) :=
  nonce ← eth.get_transaction_count sender;
  gas_price ← eth.gas_price;
  tx ← eth.build_transaction (_proxy self) f (tx_params nonce gas_price);
  tx_hash ← eth.send_raw_transaction
              (eth.sign_transaction (_account self) tx);
  receipt ← eth.wait_for_transaction_receipt polls tx_hash;
  mret (tx_hash, receipt).

(** A round-trip that carries a contract function carries [f]. *)
Definition carries (f : contract_function) (c : rpc) : Prop :=
  match c with
  | eth_estimateGas _ f' _ => f' = f
  | eth_sendRawTransaction raw => data (payload raw) = f
  | _ => True
  end.

(** The record [inscribe] returns. *)
Definition inscribe_result (content_hash tx_hash : Py.bytes)
    (receipt : TxReceipt) (cycles : Z) : InscribeResult.t :=
  {| InscribeResult.tx_hash := Py.hex tx_hash;
     InscribeResult.proof_hash := Py.lit "0x" ++ Py.hex content_hash;
     InscribeResult.cycle_id := blockNumber receipt;
     InscribeResult.network_cycle := cycles |}.

End pipeline_vocabulary.

(** The sequence numbers of the transactions submitted in a trace. *)
Definition submitted_nonces (t : list rpc) : list Z :=
  omap (fun c => match c with
                 | eth_sendRawTransaction raw => Some (nonce (params (payload raw)))
                 | _ => None
                 end) t.

(** A node whose transaction count is [n0] plus the submissions it has
    received. *)
Definition counts_submissions (n0 : Z) (node : Node) : Prop :=
  forall h a,
    node h (eth_getTransactionCount a) = Return (n0 + Z.of_nat (count_sends h))%Z.

(** What one run from history [h] submits: nothing, and then it does not
    return; or one transaction, under the sequence number the node gave at
    the start of this very run. *)
Definition submits_once (node : Node) (self : Custos) {A : Type}
    (h : list rpc) (o : outcome A) (t : list rpc) : Prop :=
  (submitted_nonces t = [] /\ count_sends t = 0%nat
   /\ forall r, o <> Return r)
  \/ (exists n,
        node h (eth_getTransactionCount (eth.address (_account self)))
        = Return n
        /\ submitted_nonces t = [n] /\ count_sends t = 1%nat).

(** The names of [BLOCK_TYPE_MAP]. *)
Definition categories : list Py.str :=
  [ Py.lit "build"; Py.lit "research"; Py.lit "market"; Py.lit "system";
    Py.lit "governance" ].

(** A hexadecimal string in the strict sense: hexadecimal digits only, two
    per byte. *)
Definition hexadecimal (t : Py.str) : bool :=
  forallb Py.isxdigit t && Nat.even (length t).

(** The number of hexadecimal digits in a string. *)
Definition xdigits (t : Py.str) : nat :=
  length (List.filter Py.isxdigit t).

(** ** json.dumps, on the dicts the examples pass to it *)

Module json.

(** The values of these dicts: [None], an [int], a [str]. *)
Inductive value :=
| Null
| Int (z : Z)
| Str (s : Py.str).

(** Four lowercase hexadecimal digits, as ['{0:04x}'.format(n)] gives for
    [n] below [0x10000]. *)
Definition hex4 (n : N) : Py.str :=
  [ Py.hexdigit (N.land (N.shiftr n 12) 15);
    Py.hexdigit (N.land (N.shiftr n 8) 15);
    Py.hexdigit (N.land (N.shiftr n 4) 15);
    Py.hexdigit (N.land n 15) ].

(** A backslash, [u] and four digits. *)
Definition u_escape (n : N) : Py.str := 92 :: 117 :: hex4 n.

(** [ESCAPE_ASCII] and [ESCAPE_DCT]: the backslash, the double quote and
    everything outside [' '..'~'] is escaped; a character above the basic
    plane becomes a surrogate pair. *)
Definition escape_char (c : N) : Py.str :=
  if c =? 92 then [92; 92]
  else if c =? 34 then [92; 34]
  else if (32 <=? c) && (c <=? 126) then [c]
  else if c =? 8 then [92; 98]
  else if c =? 12 then [92; 102]
  else if c =? 10 then [92; 110]
  else if c =? 13 then [92; 114]
  else if c =? 9 then [92; 116]
  else if c <? 0x10000 then u_escape c
  else
    let n := c - 0x10000 in
    u_escape (N.lor 0xD800 (N.land (N.shiftr n 10) 0x3FF))
      ++ u_escape (N.lor 0xDC00 (N.land n 0x3FF)).

(** [py_encode_basestring_ascii(s)] *)
Definition encode_basestring_ascii (s : Py.str) : Py.str :=
  34 :: mjoin (escape_char <$> s) ++ [34].

Fixpoint digits (d : Decimal.uint) : Py.str :=
  match d with
  | Decimal.Nil => []
  | Decimal.D0 d' => 48 :: digits d'
  | Decimal.D1 d' => 49 :: digits d'
  | Decimal.D2 d' => 50 :: digits d'
  | Decimal.D3 d' => 51 :: digits d'
  | Decimal.D4 d' => 52 :: digits d'
  | Decimal.D5 d' => 53 :: digits d'
  | Decimal.D6 d' => 54 :: digits d'
  | Decimal.D7 d' => 55 :: digits d'
  | Decimal.D8 d' => 56 :: digits d'
  | Decimal.D9 d' => 57 :: digits d'
  end.

(** [int.__repr__] *)
Definition repr_int (z : Z) : Py.str :=
  match Z.to_int z with
  | Decimal.Pos d => digits d
  | Decimal.Neg d => 45 :: digits d
  end.

Definition dumps_value (v : value) : Py.str :=
  match v with
  | Null => Py.lit "null"
  | Int z => repr_int z
  | Str s => encode_basestring_ascii s
  end.

Definition dumps_item (kv : Py.str * value) : Py.str :=
  encode_basestring_ascii kv.1 ++ Py.lit ": " ++ dumps_value kv.2.

(** The items, with [", "] between them. *)
Fixpoint join_items (items : list Py.str) : Py.str :=
  match items with
  | [] => []
  | [x] => x
  | x :: rest => x ++ Py.lit ", " ++ join_items rest
  end.

(** [json.dumps(d)] with the defaults ([ensure_ascii=True], separators
    [", "] and [": "]), for a dict [d] given by its items in insertion
    order. *)
Definition dumps (d : list (Py.str * value)) : Py.str :=
  Py.lit "{" ++ join_items (dumps_item <$> d) ++ Py.lit "}".

End json.

(** ** Custos.__init__ *)

Section init.

(** [Account.from_key] and [AsyncWeb3.to_checksum_address], which raise on a
    key or an address they do not accept. *)
Variable from_key : Py.str -> outcome eth.LocalAccount.
Variable to_checksum_address : Py.str -> outcome ChecksumAddress.

(** Lines 127-135. The client keeps the account of the key, with [0x] put
    in front of it when it is not there, and calls the contract at the
    checksum form of the proxy address. *)
Definition Custos_init (private_key : Py.str) (agent_id : Z)
    (proxy_address : Py.str) : outcome Custos :=
  let pk :=
    if Py.startswith private_key (Py.lit "0x") then private_key
    else Py.lit "0x" ++ private_key in
  match from_key pk with
  | Raise e => Raise e
  | Return account =>
      match to_checksum_address proxy_address with
      | Raise e => Raise e
      | Return contract =>
          Return {| _account := account;
                    _agent_id := agent_id;
                    _proxy := contract |}
      end
  end.

End init.

(** ** The examples *)

Section examples.

Variable polls : nat.
Variable Message : Type.

(** langgraph_example.py *)
Record AgentState := {
  messages : list Message;
  task : Py.str;
  result : Py.str
}.

(** [inscribe_node(state)], lines 43-65, without what it prints. *)
Definition inscribe_node (loop_running : bool) (node : Node) (h : list rpc)
    (custos : Custos) (state : AgentState)
    : outcome AgentState * list rpc :=
  let summary := take 140 (result state) in
  let content :=
    json.dumps
      [ (Py.lit "task", json.Str (task state));
        (Py.lit "result", json.Str (result state));
        (Py.lit "messages", json.Int (Z.of_nat (length (messages state)))) ] in
  match inscribe_sync polls loop_running node h custos
          (Py.lit "research") summary content
  with
  | (Return _, h') => (Return state, h')
  | (Raise e, h') => (Raise e, h')
  end.

(** crewai_example.py, lines 74-82: the inscription of the crew's output
    [raw]. *)
Definition crew_inscribe (loop_running : bool) (node : Node) (h : list rpc)
    (custos : Custos) (raw : Py.str)
    : outcome InscribeResult.t * list rpc :=
  let summary := take 140 raw in
  let content :=
    json.dumps
      [ (Py.lit "crew", json.Str (Py.lit "ai-accountability-research"));
        (Py.lit "tasks", json.Int 2);
        (Py.lit "output", json.Str raw) ] in
  inscribe_sync polls loop_running node h custos
    (Py.lit "research") summary content.

End examples.

(** ** Calls made one after the other *)

Inductive call :=
| Inscribe (block summary content : Py.str)
| Attest (proof_hash : Py.str) (valid : bool).

(** The history after one call has run to its end, whatever its outcome. *)
Definition after_call (polls : nat) (node : Node) (self : Custos)
    (h : list rpc) (c : call) : list rpc :=
  match c with
  | Inscribe block summary content =>
      (run_until_complete node h (inscribe polls self block summary content)).2
  | Attest proof_hash valid =>
      (run_until_complete node h (attest polls self proof_hash valid)).2
  end.

(** The history after a list of calls, each started when the one before has
    returned or raised. *)
Definition after_calls (polls : nat) (node : Node) (self : Custos)
    (h : list rpc) (cs : list call) : list rpc :=
  foldl (after_call polls node self) h cs.

(** ** More vocabulary *)

(** A hexadecimal digit in upper case; any other character is itself. *)
Definition upper_xdigit (c : N) : N :=
  if (97 <=? c) && (c <=? 102) then c - 32 else c.

(** A digit or a lowercase letter [a]..[f]. *)
Definition lower_xdigit (c : N) : bool :=
  ((48 <=? c) && (c <=? 57)) || ((97 <=? c) && (c <=? 102)).

(** A round-trip of this client: about its own account and its own contract,
    and, for a submission, signed with its own key. *)
Definition own (self : Custos) (c : rpc) : Prop :=
  match c with
  | eth_getTransactionCount a => a = eth.address (_account self)
  | eth_gasPrice => True
  | eth_estimateGas contract _ p =>
      contract = _proxy self /\ from p = eth.address (_account self)
  | eth_chainId => True
  | eth_sendRawTransaction raw =>
      signer raw = eth.key (_account self)
      /\ to (payload raw) = _proxy self
      /\ from (params (payload raw)) = eth.address (_account self)
  | eth_getTransactionReceipt _ => True
  | eth_call_totalCycles contract => contract = _proxy self
  end.

(** The shape of a trace of the pipeline: the first [k] of the five
    round-trips up to submission, then [n] polls, then [last]; the sequence
    number and the gas price in them are the answers of the node in this
    very run. *)
Definition pipeline_trace (polls : nat) (node : Node) (self : Custos)
    (h : list rpc) (f : contract_function)
    (last t : list rpc) : Prop :=
  exists nonce gas_price d tx_hash k n,
    t = take k (submission self f nonce gas_price d)
          ++ replicate n (poll tx_hash) ++ last
    /\ (1 <= k <= 5)%nat /\ (n <= polls)%nat
    /\ ((k < 5)%nat -> n = 0%nat /\ last = [])
    /\ ((2 <= k)%nat ->
        node h (eth_getTransactionCount (eth.address (_account self)))
        = Return nonce)
    /\ ((3 <= k)%nat ->
        node (h ++ [eth_getTransactionCount (eth.address (_account self))])
          eth_gasPrice = Return gas_price).


(** A printable ASCII character, [' '] to ['~']. *)
Definition printable (c : N) : Prop := 32 <= c <= 126.

(** * Properties *)

(** ** The built-ins *)

Section builtins.

Lemma fromhex_hex_byte (x : byte) (rest : Py.str) :
  Py.fromhex (Py.hex [x] ++ rest)
  = match Py.fromhex rest with
    | Some bs => Some (x :: bs)
    | None => None
    end.
Proof. destruct x; reflexivity. Qed.

(** [bytes.fromhex(b.hex()) == b] *)
Lemma fromhex_hex (b : Py.bytes) : Py.fromhex (Py.hex b) = Some b.
Proof.
  induction b as [|x b IH]; [reflexivity|].
  change (Py.hex (x :: b)) with (Py.hex [x] ++ Py.hex b).
  now rewrite fromhex_hex_byte, IH.
Qed.

Lemma length_ljust (b : Py.bytes) (width : nat) (fill : byte) :
  length (Py.ljust b width fill) = Nat.max (length b) width.
Proof. unfold Py.ljust. rewrite length_app, length_replicate. lia. Qed.

Lemma length_compress (h block : list N) :
  length h = 8%nat -> length (hashlib.compress h block) = 8%nat.
Proof.
  intros Hh. unfold hashlib.compress.
  rewrite length_zip_with, Hh. reflexivity.
Qed.

Lemma length_foldl_compress (bs : list (list N)) (h : list N) :
  length h = 8%nat -> length (foldl hashlib.compress h bs) = 8%nat.
Proof.
  revert h. induction bs as [|b bs IH]; intros h Hh; simpl; [done|].
  apply IH, length_compress, Hh.
Qed.

(** The model of SHA-256 on the digests [hashlib] prints for the empty
    message, for one block and for two blocks, and for text outside ASCII. *)
Example sha256_empty :
  hashlib.hexdigest []
  = Py.lit "e3b0c44298fc1c149afbf4c8996fb92427ae41e4649b934ca495991b7852b855".
Proof. vm_compute. reflexivity. Qed.

Example sha256_abc :
  hashlib.hexdigest <$> Py.encode (Py.lit "abc")
  = Some
      (Py.lit "ba7816bf8f01cfea414140de5dae2223b00361a396177a9cb410ff61f20015ad").
Proof. vm_compute. reflexivity. Qed.

Example sha256_two_blocks :
  hashlib.hexdigest
    <$> Py.encode
          (Py.lit "abcdbcdecdefdefgefghfghighijhijkijkljklmklmnlmnomnopnopq")
  = Some
      (Py.lit "248d6a61d20638b8e5c026930c3e6039a33ce45964ff2167f6ecedd419db06c1").
Proof. vm_compute. reflexivity. Qed.

Example sha256_utf8 :
  hashlib.hexdigest <$> Py.encode [0xE9; 0x20AC; 0x1F600]
  = Some
      (Py.lit "df9226927fd572c1ee66eec85de1bb139497614899f36e4e90474cb71f6ef9d0").
Proof. vm_compute. reflexivity. Qed.

Example encode_surrogate : Py.encode [0x61; 0xD800] = None.
Proof. reflexivity. Qed.

Example fromhex_spaced :
  Py.fromhex (Py.lit " ab cd ") = Some ["171"%byte; "205"%byte]
  /\ Py.fromhex (Py.lit "a b") = None
  /\ Py.fromhex (Py.lit "abc") = None
  /\ Py.fromhex (Py.removeprefix (Py.lit "0Xab") (Py.lit "0x")) = None.
Proof. repeat split. Qed.

(** A SHA-256 digest has 32 bytes, whatever the message. *)
Lemma length_sha256 (msg : Py.bytes) : length (hashlib.sha256 msg) = 32%nat.
Proof.
  unfold hashlib.sha256.
  pose proof (length_foldl_compress
                (hashlib.blocks (length (hashlib.pad msg) / 64)
                   (hashlib.pad msg)) hashlib.H0 eq_refl) as Hl.
  destruct (foldl _ _ _) as [|w0 [|w1 [|w2 [|w3 [|w4 [|w5 [|w6 [|w7 [|]]]]]]]]];
    simpl in Hl; try discriminate.
  reflexivity.
Qed.

End builtins.

(** ** The event loop *)

Section event_loop.

Variable node : Node.

Lemma run_bind {A B : Type} (m : coro A) (f : A -> coro B) (h : list rpc) :
  run_until_complete node h (bind m f)
  = match run_until_complete node h m with
    | (Return a, h') => run_until_complete node h' (f a)
    | (Raise e, h') => (Raise e, h')
    end.
Proof.
  revert h. induction m as [a|e|c k IH]; intros h; simpl; try reflexivity.
  destruct (node h c) as [r|e]; [apply IH | reflexivity].
Qed.


(** A run only ever adds round-trips to the history. *)
Lemma run_extends {A : Type} (m : coro A) (h h' : list rpc) (o : outcome A) :
  run_until_complete node h m = (o, h') -> exists t, h' = h ++ t.
Proof.
  revert h. induction m as [a|e|c k IH]; intros h; simpl.
  - intros [= _ <-]. exists []. now rewrite app_nil_r.
  - intros [= _ <-]. exists []. now rewrite app_nil_r.
  - destruct (node h c) as [r|e].
    + intros Hr. destruct (IH _ _ Hr) as [t ->].
      exists (c :: t). now rewrite <- app_assoc.
    + intros [= _ <-]. now exists [c].
Qed.

(** An exception of the node at any round-trip of a run is the outcome of
    the run, and the round-trip it came from is the last one. *)
Lemma run_raises {A : Type} (m : coro A) (h : list rpc) (o : outcome A)
    (t1 t2 : list rpc) (c : rpc) (e : exn) :
  run_until_complete node h m = (o, h ++ t1 ++ c :: t2) ->
  node (h ++ t1) c = Raise e ->
  o = Raise e /\ t2 = [].
Proof.
  revert h t1. induction m as [a|e'|c' k IH]; intros h t1; simpl.
  - intros [= _ Hh] _. exfalso.
    apply (f_equal length) in Hh. rewrite !length_app in Hh. simpl in Hh. lia.
  - intros [= _ Hh] _. exfalso.
    apply (f_equal length) in Hh. rewrite !length_app in Hh. simpl in Hh. lia.
  - destruct (node h c') as [r|e'] eqn:Hn.
    + intros Hr Hc. destruct t1 as [|c1 t1].
      * rewrite app_nil_r in Hc. simpl in Hr.
        destruct (run_extends _ _ _ _ Hr) as [t Ht].
        rewrite <- app_assoc in Ht. apply app_inv_head in Ht.
        injection Ht as -> _. congruence.
      * destruct (run_extends _ _ _ _ Hr) as [t Ht].
        pose proof Ht as Ht'.
        rewrite <- app_assoc in Ht'. apply app_inv_head in Ht'.
        simpl in Ht'. injection Ht' as Hc1 _. subst c1.
        apply (IH r (h ++ [c']) t1).
        -- rewrite Hr. now rewrite <- !app_assoc.
        -- rewrite <- Hc. now rewrite <- app_assoc.
    + intros [= <- Hh] Hc. apply app_inv_head in Hh.
      destruct t1 as [|c1 t1]; simpl in Hh.
      * injection Hh as -> <-. rewrite app_nil_r in Hc. split; congruence.
      * injection Hh as _ Hh. destruct t1; discriminate.
Qed.


Lemma replicate_snoc {X : Type} (n : nat) (x : X) :
  replicate n x ++ [x] = replicate (S n) x.
Proof. induction n as [|n IH]; simpl; [done | now rewrite IH]. Qed.

(** A receipt comes back from the first poll the node answers with one. *)
Lemma wait_returns (polls : nat) (tx_hash : Py.bytes) (h h' : list rpc)
    (receipt : TxReceipt) :
  run_until_complete node h (eth.wait_for_transaction_receipt polls tx_hash)
  = (Return receipt, h') ->
  exists n, (n < polls)%nat
    /\ h' = h ++ replicate (S n) (poll tx_hash)
    /\ node (h ++ replicate n (poll tx_hash)) (poll tx_hash)
       = Return (Some receipt).
Proof.
  revert h. induction polls as [|polls IH]; intros h; simpl; [discriminate|].
  destruct (node h (poll tx_hash)) as [[rc|]|e] eqn:Hn; simpl.
  - intros [= <- <-]. exists 0%nat. simpl. rewrite app_nil_r.
    split; [lia|]. split; [done|]. exact Hn.
  - intros Hr. destruct (IH _ Hr) as (n & Hlt & -> & Hn').
    exists (S n). split; [lia|]. rewrite <- !app_assoc in *. simpl in *.
    split; [done|]. exact Hn'.
  - discriminate.
Qed.

(** The wait only polls for the receipt, and at most [polls] times. *)
Lemma wait_trace (polls : nat) (tx_hash : Py.bytes) (h h' : list rpc)
    (o : outcome TxReceipt) :
  run_until_complete node h (eth.wait_for_transaction_receipt polls tx_hash)
  = (o, h') ->
  exists n, (n <= polls)%nat /\ h' = h ++ replicate n (poll tx_hash).
Proof.
  revert h. induction polls as [|polls IH]; intros h; simpl.
  - intros [= _ <-]. exists 0%nat. simpl. now rewrite app_nil_r.
  - destruct (node h (poll tx_hash)) as [[rc|]|e] eqn:Hn; simpl.
    + intros [= _ <-]. exists 1%nat. split; [lia | done].
    + intros Hr. destruct (IH _ Hr) as (n & Hle & ->).
      exists (S n). split; [lia|]. now rewrite <- app_assoc.
    + intros [= _ <-]. exists 1%nat. split; [lia | done].
Qed.

(** Without a receipt in any of the [polls] polls, the wait raises
    [TimeExhausted]. *)
Lemma wait_times_out (polls : nat) (tx_hash : Py.bytes) (h : list rpc) :
  (forall i, (i < polls)%nat ->
     node (h ++ replicate i (poll tx_hash)) (poll tx_hash) = Return None) ->
  run_until_complete node h (eth.wait_for_transaction_receipt polls tx_hash)
  = (Raise TimeExhausted, h ++ replicate polls (poll tx_hash)).
Proof.
  revert h. induction polls as [|polls IH]; intros h Hnone; simpl.
  - now rewrite app_nil_r.
  - pose proof (Hnone 0%nat ltac:(lia)) as H0. simpl in H0.
    rewrite app_nil_r in H0. rewrite H0.
    rewrite IH.
    + now rewrite <- app_assoc.
    + intros i Hi. specialize (Hnone (S i) ltac:(lia)).
      simpl in Hnone. now rewrite <- app_assoc.
Qed.

End event_loop.

(** ** The transaction pipeline, step by step *)

Section pipeline.

Variable polls : nat.
Variable self : Custos.

Abbreviation sender := (eth.address (_account self)).

Variable node : Node.

(** The run of the pipeline, round-trip by round-trip. *)
Lemma submit_and_wait_run (f : contract_function) (h : list rpc) :
  run_until_complete node h (submit_and_wait polls self f)
  = match node h (eth_getTransactionCount sender) with
    | Raise e => (Raise e, h ++ [eth_getTransactionCount sender])
    | Return nonce =>
        match node (h ++ [eth_getTransactionCount sender]) eth_gasPrice with
        | Raise e =>
            (Raise e, h ++ [eth_getTransactionCount sender; eth_gasPrice])
        | Return gp =>
            if eth.abi_encodable f then
              match
                node (h ++ [eth_getTransactionCount sender; eth_gasPrice])
                  (eth_estimateGas (_proxy self) f (tx_params self nonce gp))
              with
              | Raise e =>
                  (Raise e,
                   h ++ [eth_getTransactionCount sender; eth_gasPrice;
                         eth_estimateGas (_proxy self) f
                           (tx_params self nonce gp)])
              | Return g =>
                  match
                    node (h ++ [eth_getTransactionCount sender; eth_gasPrice;
                                eth_estimateGas (_proxy self) f
                                  (tx_params self nonce gp)]) eth_chainId
                  with
                  | Raise e =>
                      (Raise e,
                       h ++ [eth_getTransactionCount sender; eth_gasPrice;
                             eth_estimateGas (_proxy self) f
                               (tx_params self nonce gp); eth_chainId])
                  | Return ch =>
                      let d := {| gas := g; chainId := ch |} in
                      match
                        node (h ++ take 4 (submission self f nonce gp d))
                          (eth_sendRawTransaction (signed_tx self f nonce gp d))
                      with
                      | Raise e => (Raise e, h ++ submission self f nonce gp d)
                      | Return txh =>
                          match
                            run_until_complete node
                              (h ++ submission self f nonce gp d)
                              (eth.wait_for_transaction_receipt polls txh)
                          with
                          | (Return rc, h') => (Return (txh, rc), h')
                          | (Raise e, h') => (Raise e, h')
                          end
                      end
                  end
              end
            else
              (Raise ABIEncodeError,
               h ++ [eth_getTransactionCount sender; eth_gasPrice])
        end
    end.
Proof.
  unfold submit_and_wait, eth.build_transaction, mbind, coro_bind, mret,
    coro_ret, submission, signed_tx.
  destruct (eth.abi_encodable f); simpl.
  - destruct (node h _) as [nonce|e]; [|reflexivity].
    destruct (node (h ++ _) eth_gasPrice) as [gp|e];
      rewrite <- ?app_assoc; simpl; [|reflexivity].
    destruct (node _ (eth_estimateGas _ _ _)) as [g|e];
      rewrite <- ?app_assoc; simpl; [|reflexivity].
    destruct (node _ eth_chainId) as [ch|e];
      rewrite <- ?app_assoc; simpl; [|reflexivity].
    destruct (node _ (eth_sendRawTransaction _)) as [txh|e];
      rewrite <- ?app_assoc; simpl; [|reflexivity].
    rewrite run_bind.
    destruct (run_until_complete node _
                (eth.wait_for_transaction_receipt _ _)) as [[rc|e] h6];
      reflexivity.
  - destruct (node h _) as [nonce|e]; [|reflexivity].
    destruct (node (h ++ _) eth_gasPrice) as [gp|e];
      rewrite <- ?app_assoc; reflexivity.
Qed.

Lemma submit_and_wait_returns (f : contract_function) (h h' : list rpc)
    (tx_hash : Py.bytes) (receipt : TxReceipt) :
  run_until_complete node h (submit_and_wait polls self f)
  = (Return (tx_hash, receipt), h') ->
  exists nonce gas_price d n,
    accepted self node h f nonce gas_price d tx_hash
    /\ (n < polls)%nat
    /\ h' = h ++ submission self f nonce gas_price d
              ++ replicate (S n) (poll tx_hash)
    /\ node (h ++ submission self f nonce gas_price d
               ++ replicate n (poll tx_hash)) (poll tx_hash)
       = Return (Some receipt).
Proof.
  rewrite submit_and_wait_run.
  destruct (node h _) as [nonce|e] eqn:H1; [|discriminate].
  destruct (node (h ++ _) eth_gasPrice) as [gp|e] eqn:H2; [|discriminate].
  destruct (eth.abi_encodable f); [|discriminate].
  destruct (node _ (eth_estimateGas _ _ _)) as [g|e] eqn:H3; [|discriminate].
  destruct (node _ eth_chainId) as [ch|e] eqn:H4; [|discriminate].
  cbv zeta.
  destruct (node _ (eth_sendRawTransaction _)) as [txh|e] eqn:H5;
    [|discriminate].
  destruct (run_until_complete node _ (eth.wait_for_transaction_receipt _ _))
    as [[rc|e] h6] eqn:H6; [|discriminate].
  intros [= <- <- <-].
  destruct (wait_returns _ _ _ _ _ _ H6) as (n & Hn & -> & Hrc).
  exists nonce, gp, {| gas := g; chainId := ch |}, n.
  unfold accepted. rewrite <- !app_assoc in *. auto 10.
Qed.

Lemma submit_and_wait_times_out (f : contract_function) (h : list rpc)
    (nonce gas_price : Z) (d : TxDefaults) (tx_hash : Py.bytes) :
  eth.abi_encodable f = true ->
  accepted self node h f nonce gas_price d tx_hash ->
  (forall i, (i < polls)%nat ->
     node (h ++ submission self f nonce gas_price d ++ replicate i (poll tx_hash))
       (poll tx_hash) = Return None) ->
  run_until_complete node h (submit_and_wait polls self f)
  = (Raise TimeExhausted,
     h ++ submission self f nonce gas_price d ++ replicate polls (poll tx_hash)).
Proof.
  intros Habi (H1 & H2 & H3 & H4 & H5) Hnone.
  rewrite submit_and_wait_run, Habi. destruct d as [g ch].
  unfold submission in H2, H3, H4. simpl in H2, H3, H4.
  rewrite H1, H2, H3, H4. cbv zeta. rewrite H5.
  rewrite wait_times_out.
  - now rewrite <- !app_assoc.
  - intros i Hi. rewrite <- (Hnone i Hi). now rewrite <- !app_assoc.
Qed.

(** Whatever the node answers, the contract function that is built and
    submitted is [f]. *)
Lemma submit_and_wait_carries (f : contract_function) (h : list rpc)
    (o : outcome (Py.bytes * TxReceipt)) (t : list rpc) :
  run_until_complete node h (submit_and_wait polls self f) = (o, h ++ t) ->
  Forall (carries f) t.
Proof.
  rewrite submit_and_wait_run.
  destruct (node h _) as [nonce|e] eqn:H1.
  2:{ intros [= _ Ht]. apply app_inv_head in Ht. subst t.
      repeat constructor. }
  destruct (node (h ++ _) eth_gasPrice) as [gp|e] eqn:H2.
  2:{ intros [= _ Ht]. apply app_inv_head in Ht. subst t.
      repeat constructor. }
  destruct (eth.abi_encodable f).
  2:{ intros [= _ Ht]. apply app_inv_head in Ht. subst t.
      repeat constructor. }
  destruct (node _ (eth_estimateGas _ _ _)) as [g|e] eqn:H3.
  2:{ intros [= _ Ht]. apply app_inv_head in Ht. subst t.
      repeat constructor. }
  destruct (node _ eth_chainId) as [ch|e] eqn:H4.
  2:{ intros [= _ Ht]. apply app_inv_head in Ht. subst t.
      repeat constructor. }
  cbv zeta.
  destruct (node _ (eth_sendRawTransaction _)) as [txh|e] eqn:H5.
  2:{ intros [= _ Ht]. apply app_inv_head in Ht. subst t.
      unfold submission. repeat constructor. }
  destruct (run_until_complete node _ (eth.wait_for_transaction_receipt _ _))
    as [ow h6] eqn:H6.
  destruct (wait_trace _ _ _ _ _ _ H6) as (n & _ & ->).
  assert (Forall (carries f)
            (submission self f nonce gp {| gas := g; chainId := ch |}
             ++ replicate n (poll txh))) as Hall.
  { apply Forall_app. split; [unfold submission; repeat constructor|].
    apply Forall_replicate. exact I. }
  destruct ow as [rc|e]; intros [= _ Ht];
    rewrite <- !app_assoc in Ht; apply app_inv_head in Ht; subst t;
    exact Hall.
Qed.

End pipeline.

(** ** The client, step by step *)

Section client_runs.

Variable polls : nat.
Variable node : Node.
Variable self : Custos.

(** The digest is computed without a round-trip, and is the SHA-256 of the
    encoded content: the detour through its hexadecimal form and the cut to
    32 bytes change nothing. *)
Lemma content_hash_of_encoded (content : Py.str) (encoded : Py.bytes) :
  Py.encode content = Some encoded ->
  content_hash_of content = Ret (hashlib.sha256 encoded).
Proof.
  intros He. unfold content_hash_of, hashlib.hexdigest. rewrite He. simpl.
  rewrite fromhex_hex. simpl.
  unfold mret, coro_ret. f_equal.
  apply take_ge. now rewrite length_sha256.
Qed.

Lemma content_hash_of_surrogate (content : Py.str) :
  Py.encode content = None ->
  content_hash_of content = Throw UnicodeEncodeError.
Proof. intros He. unfold content_hash_of. now rewrite He. Qed.

(** Past its local checks, [inscribe] is the pipeline on [inscribeCycle]
    followed by the read of [totalCycles]. *)
Lemma inscribe_run (h : list rpc) (block summary content : Py.str)
    (block_type : Z) (encoded : Py.bytes) :
  (length summary <= 140)%nat ->
  BLOCK_TYPE_MAP !! block = Some block_type ->
  Py.encode content = Some encoded ->
  run_until_complete node h (inscribe polls self block summary content)
  = match run_until_complete node h
            (submit_and_wait polls self
               (inscribeCycle block_type summary (hashlib.sha256 encoded)))
    with
    | (Raise e, h') => (Raise e, h')
    | (Return (tx_hash, receipt), h') =>
        match node h' (eth_call_totalCycles (_proxy self)) with
        | Return cycles =>
            (Return (inscribe_result (hashlib.sha256 encoded) tx_hash
                       receipt cycles),
             h' ++ [eth_call_totalCycles (_proxy self)])
        | Raise e => (Raise e, h' ++ [eth_call_totalCycles (_proxy self)])
        end
    end.
Proof.
  intros Hs Hb He. unfold inscribe.
  replace (140 <? length summary)%nat with false
    by (symmetry; apply Nat.ltb_ge; exact Hs).
  rewrite Hb, (content_hash_of_encoded _ _ He).
  unfold submit_and_wait, eth.build_transaction, mbind, coro_bind, mret,
    coro_ret. simpl.
  destruct (node h _) as [nonce|e]; [|reflexivity].
  destruct (node (h ++ _) eth_gasPrice) as [gp|e]; [|reflexivity].
  destruct (eth.abi_encodable _); simpl.
  - destruct (node _ (eth_estimateGas _ _ _)) as [g|e]; [|reflexivity].
    destruct (node _ eth_chainId) as [ch|e]; [|reflexivity].
    destruct (node _ (eth_sendRawTransaction _)) as [txh|e]; [|reflexivity].
    rewrite !run_bind.
    destruct (run_until_complete node _
                (eth.wait_for_transaction_receipt _ _)) as [[rc|e] h5];
      [|reflexivity].
    simpl. destruct (node h5 _) as [cycles|e]; reflexivity.
  - reflexivity.
Qed.

(** Past the decoding of the proof identifier, [attest] is the pipeline on
    [attestProof]; there is no read of [totalCycles]. *)
Lemma attest_run (h : list rpc) (proof_hash : Py.str) (valid : bool)
    (ph_bytes : Py.bytes) :
  Py.fromhex (Py.removeprefix proof_hash (Py.lit "0x")) = Some ph_bytes ->
  run_until_complete node h (attest polls self proof_hash valid)
  = match run_until_complete node h
            (submit_and_wait polls self
               (attestProof (_agent_id self)
                  (take 32 (Py.ljust ph_bytes 32 x00)) valid))
    with
    | (Raise e, h') => (Raise e, h')
    | (Return (tx_hash, _), h') =>
        (Return {| AttestResult.tx_hash := Py.hex tx_hash |}, h')
    end.
Proof.
  intros Hp. unfold attest, ph32_of. rewrite Hp.
  unfold submit_and_wait, eth.build_transaction, mbind, coro_bind, mret,
    coro_ret. simpl.
  destruct (node h _) as [nonce|e]; [|reflexivity].
  destruct (node (h ++ _) eth_gasPrice) as [gp|e]; [|reflexivity].
  destruct (eth.abi_encodable _); simpl.
  - destruct (node _ (eth_estimateGas _ _ _)) as [g|e]; [|reflexivity].
    destruct (node _ eth_chainId) as [ch|e]; [|reflexivity].
    destruct (node _ (eth_sendRawTransaction _)) as [txh|e]; [|reflexivity].
    rewrite !run_bind.
    destruct (run_until_complete node _
                (eth.wait_for_transaction_receipt _ _)) as [[rc|e] h5];
      reflexivity.
  - reflexivity.
Qed.

Lemma attest_rejects (proof_hash : Py.str) (valid : bool) :
  Py.fromhex (Py.removeprefix proof_hash (Py.lit "0x")) = None ->
  attest polls self proof_hash valid = Throw (ValueError non_hexadecimal).
Proof. intros Hp. unfold attest, ph32_of. now rewrite Hp. Qed.

End client_runs.

(** ** Local checks: what fails before the first round-trip *)

Section local_checks.

Variable polls : nat.
Variable self : Custos.

Lemma BLOCK_TYPE_MAP_lookup (block : Py.str) (block_type : Z) :
  BLOCK_TYPE_MAP !! block = Some block_type -> block ∈ categories.
Proof.
  unfold BLOCK_TYPE_MAP, categories. intros Hl.
  repeat (apply lookup_insert_Some in Hl;
          destruct Hl as [[<- _]|[_ Hl]]; [set_solver|]).
  now rewrite lookup_empty in Hl.
Qed.

Lemma BLOCK_TYPE_MAP_unknown (block : Py.str) :
  block ∉ categories <-> BLOCK_TYPE_MAP !! block = None.
Proof.
  split.
  - intros Hn. destruct (BLOCK_TYPE_MAP !! block) as [bt|] eqn:Hl; [|done].
    destruct Hn. eapply BLOCK_TYPE_MAP_lookup, Hl.
  - intros Hl Hin. unfold categories in Hin.
    repeat (apply elem_of_cons in Hin; destruct Hin as [->|Hin];
            [vm_compute in Hl; discriminate|]).
    now apply elem_of_nil in Hin.
Qed.

Lemma BLOCK_TYPE_MAP_code (block : Py.str) (block_type : Z) :
  BLOCK_TYPE_MAP !! block = Some block_type -> (0 <= block_type <= 4)%Z.
Proof.
  unfold BLOCK_TYPE_MAP. intros Hl.
  repeat (apply lookup_insert_Some in Hl;
          destruct Hl as [[_ <-]|[_ Hl]]; [lia|]).
  now rewrite lookup_empty in Hl.
Qed.

(** The arguments [inscribe] passes to [inscribeCycle] fit the ABI as soon
    as the summary can be encoded in UTF-8: the code is one of 0 to 4 and the
    digest has 32 bytes. *)
Lemma inscribeCycle_encodable (block summary : Py.str) (block_type : Z)
    (summary_bytes encoded : Py.bytes) :
  BLOCK_TYPE_MAP !! block = Some block_type ->
  Py.encode summary = Some summary_bytes ->
  eth.abi_encodable
    (inscribeCycle block_type summary (hashlib.sha256 encoded)) = true.
Proof.
  intros Hb Hs. apply BLOCK_TYPE_MAP_code in Hb.
  unfold eth.abi_encodable. rewrite Hs, length_sha256.
  replace (0 <=? block_type)%Z with true by (symmetry; apply Z.leb_le; lia).
  replace (block_type <? 2 ^ 8)%Z with true
    by (symmetry; apply Z.ltb_lt; lia).
  reflexivity.
Qed.

(** Either [inscribe] raises at once, with no round-trip awaited, or all
    three local steps went through. *)
Lemma inscribe_local (block summary content : Py.str) :
  (exists e, inscribe polls self block summary content = Throw e)
  \/ (exists block_type encoded,
        (length summary <= 140)%nat
        /\ BLOCK_TYPE_MAP !! block = Some block_type
        /\ Py.encode content = Some encoded).
Proof.
  unfold inscribe.
  destruct (140 <? length summary)%nat eqn:Hs; [left; eauto|].
  apply Nat.ltb_ge in Hs.
  destruct (BLOCK_TYPE_MAP !! block) as [bt|] eqn:Hb; [|left; eauto].
  destruct (Py.encode content) as [encoded|] eqn:He.
  - right. eauto.
  - left. rewrite (content_hash_of_surrogate _ He). eauto.
Qed.

Lemma isspace_not_xdigit (c : N) :
  Py.isspace c = true -> Py.isxdigit c = false.
Proof.
  unfold Py.isspace, Py.isxdigit, Py.digit_value. intros Hs.
  destruct (48 <=? c) eqn:H1, (c <=? 57) eqn:H2, (97 <=? c) eqn:H3,
    (c <=? 102) eqn:H4, (65 <=? c) eqn:H5, (c <=? 70) eqn:H6,
    (9 <=? c) eqn:H7, (c <=? 13) eqn:H8, (c =? 32) eqn:H9;
    simpl in *; try reflexivity; try discriminate;
    rewrite ?N.leb_le, ?N.leb_gt, ?N.eqb_eq, ?N.eqb_neq in *; lia.
Qed.

(** What [bytes.fromhex] accepts holds only hexadecimal digits and ASCII
    whitespace, and an even number of digits. *)
Lemma fromhex_accepts (t : Py.str) (bs : Py.bytes) :
  Py.fromhex t = Some bs ->
  Forall (fun c => Py.isxdigit c || Py.isspace c = true) t
  /\ Nat.Even (xdigits t).
Proof.
  remember (length t) as n eqn:Hn. revert t bs Hn.
  induction n as [n IH] using lt_wf_ind. intros t bs Hn.
  destruct t as [|c rest]; simpl.
  - intros _. split; [constructor | now exists 0%nat].
  - destruct (Py.isspace c) eqn:Hs.
    + intros Hf. simpl in Hn.
      destruct (IH (length rest) ltac:(lia) rest bs eq_refl Hf) as [Hall Hev].
      split.
      * constructor; [now rewrite Hs, orb_true_r | exact Hall].
      * unfold xdigits in *. simpl.
        now rewrite (isspace_not_xdigit _ Hs).
    + destruct (Py.digit_value c) as [top|] eqn:Hc; [|discriminate].
      destruct rest as [|d rest']; [discriminate|].
      destruct (Py.digit_value d) as [bot|] eqn:Hd; [|discriminate].
      destruct (Py.fromhex rest') as [bs'|] eqn:Hf; [|discriminate].
      intros _. simpl in Hn.
      destruct (IH (length rest') ltac:(lia) rest' bs' eq_refl Hf)
        as [Hall Hev].
      assert (Py.isxdigit c = true) as Hxc by (unfold Py.isxdigit; now rewrite Hc).
      assert (Py.isxdigit d = true) as Hxd by (unfold Py.isxdigit; now rewrite Hd).
      split.
      * constructor; [now rewrite Hxc|].
        constructor; [now rewrite Hxd | exact Hall].
      * unfold xdigits in *. simpl. rewrite Hxc, Hxd. simpl.
        destruct Hev as [k Hk]. exists (S k). lia.
Qed.

End local_checks.

(** ** What a returned result stands for *)

Section results.

Variable polls : nat.
Variable node : Node.
Variable self : Custos.

(** [inscribe] returns only at the end of this run: the local checks
    passed, the node answered the round-trips up to submission, some
    poll brought the receipt, and the read of [totalCycles] was answered. *)
Lemma inscribe_returns (h h' : list rpc) (block summary content : Py.str)
    (r : InscribeResult.t) :
  run_until_complete node h (inscribe polls self block summary content)
  = (Return r, h') ->
  exists block_type encoded nonce gas_price d tx_hash n receipt cycles,
    let f := inscribeCycle block_type summary (hashlib.sha256 encoded) in
    let confirmed :=
      h ++ submission self f nonce gas_price d
        ++ replicate (S n) (poll tx_hash) in
    (length summary <= 140)%nat
    /\ BLOCK_TYPE_MAP !! block = Some block_type
    /\ Py.encode content = Some encoded
    /\ accepted self node h f nonce gas_price d tx_hash
    /\ (n < polls)%nat
    /\ node (h ++ submission self f nonce gas_price d
               ++ replicate n (poll tx_hash)) (poll tx_hash)
       = Return (Some receipt)
    /\ node confirmed (eth_call_totalCycles (_proxy self)) = Return cycles
    /\ h' = confirmed ++ [eth_call_totalCycles (_proxy self)]
    /\ r = inscribe_result (hashlib.sha256 encoded) tx_hash receipt cycles.
Proof.
  intros Hr.
  destruct (inscribe_local polls self block summary content)
    as [[e He]|(bt & encoded & Hs & Hb & Hc)].
  { rewrite He in Hr. discriminate. }
  rewrite (inscribe_run _ _ _ _ _ _ _ _ _ Hs Hb Hc) in Hr.
  destruct (run_until_complete node h (submit_and_wait _ _ _))
    as [[[txh rc]|e] h5] eqn:Hp; [|discriminate].
  destruct (node h5 _) as [cycles|e] eqn:Ht; [|discriminate].
  injection Hr as <- <-.
  destruct (submit_and_wait_returns _ _ _ _ _ _ _ _ Hp)
    as (nonce & gp & d & n & Hacc & Hn & -> & Hrc).
  exists bt, encoded, nonce, gp, d, txh, n, rc, cycles. simpl.
  rewrite <- !app_assoc in *. auto 12.
Qed.

(** [attest] returns only once the receipt has come; it reads no counter. *)
Lemma attest_returns (h h' : list rpc) (proof_hash : Py.str) (valid : bool)
    (r : AttestResult.t) :
  run_until_complete node h (attest polls self proof_hash valid)
  = (Return r, h') ->
  exists ph_bytes nonce gas_price d tx_hash n receipt,
    let f :=
      attestProof (_agent_id self) (take 32 (Py.ljust ph_bytes 32 x00)) valid in
    Py.fromhex (Py.removeprefix proof_hash (Py.lit "0x")) = Some ph_bytes
    /\ accepted self node h f nonce gas_price d tx_hash
    /\ (n < polls)%nat
    /\ node (h ++ submission self f nonce gas_price d
               ++ replicate n (poll tx_hash)) (poll tx_hash)
       = Return (Some receipt)
    /\ h' = h ++ submission self f nonce gas_price d
              ++ replicate (S n) (poll tx_hash)
    /\ r = {| AttestResult.tx_hash := Py.hex tx_hash |}.
Proof.
  intros Hr.
  destruct (Py.fromhex (Py.removeprefix proof_hash (Py.lit "0x")))
    as [ph_bytes|] eqn:Hp.
  2:{ rewrite (attest_rejects _ _ _ _ Hp) in Hr. discriminate. }
  rewrite (attest_run _ _ _ _ _ _ _ Hp) in Hr.
  destruct (run_until_complete node h (submit_and_wait _ _ _))
    as [[[txh rc]|e] h5] eqn:Hs; [|discriminate].
  injection Hr as <- <-.
  destruct (submit_and_wait_returns _ _ _ _ _ _ _ _ Hs)
    as (nonce & gp & d & n & Hacc & Hn & -> & Hrc).
  exists ph_bytes, nonce, gp, d, txh, n, rc. simpl. auto 10.
Qed.

(** The contract function [inscribe] builds and submits is [inscribeCycle]
    on the category's code, the summary and the digest of the content. *)
Lemma inscribe_carries (h t : list rpc) (block summary content : Py.str)
    (encoded : Py.bytes) (o : outcome InscribeResult.t) :
  Py.encode content = Some encoded ->
  run_until_complete node h (inscribe polls self block summary content)
  = (o, h ++ t) ->
  exists block_type,
    Forall (carries (inscribeCycle block_type summary (hashlib.sha256 encoded)))
      t.
Proof.
  intros Hc Hr.
  destruct (inscribe_local polls self block summary content)
    as [[e He]|(bt & encoded' & Hs & Hb & Hc')].
  { rewrite He in Hr. injection Hr as _ Ht.
    rewrite <- (app_nil_r h) in Ht at 1. apply app_inv_head in Ht. subst t.
    exists 0%Z. constructor. }
  assert (encoded' = encoded) as -> by congruence.
  exists bt.
  rewrite (inscribe_run _ _ _ _ _ _ _ _ _ Hs Hb Hc) in Hr.
  destruct (run_until_complete node h (submit_and_wait _ _ _))
    as [op h5] eqn:Hp.
  destruct (run_extends _ _ _ _ _ Hp) as [t5 ->].
  pose proof (submit_and_wait_carries _ _ _ _ _ _ _ Hp) as Hall.
  destruct op as [[txh rc]|e].
  - destruct (node _ _) as [cycles|e]; injection Hr as _ Ht;
      rewrite <- app_assoc in Ht; apply app_inv_head in Ht; subst t;
      (apply Forall_app; split; [exact Hall | repeat constructor]).
  - injection Hr as _ Ht. apply app_inv_head in Ht. now subst t.
Qed.

(** The contract function [attest] builds and submits is [attestProof] on
    the 32 bytes made of the decoded proof identifier. *)
Lemma attest_carries (h t : list rpc) (proof_hash : Py.str) (valid : bool)
    (ph_bytes : Py.bytes) (o : outcome AttestResult.t) :
  Py.fromhex (Py.removeprefix proof_hash (Py.lit "0x")) = Some ph_bytes ->
  run_until_complete node h (attest polls self proof_hash valid)
  = (o, h ++ t) ->
  Forall (carries (attestProof (_agent_id self)
                     (take 32 (Py.ljust ph_bytes 32 x00)) valid)) t.
Proof.
  intros Hp Hr. rewrite (attest_run _ _ _ _ _ _ _ Hp) in Hr.
  destruct (run_until_complete node h (submit_and_wait _ _ _))
    as [op h5] eqn:Hs.
  destruct (run_extends _ _ _ _ _ Hs) as [t5 ->].
  pose proof (submit_and_wait_carries _ _ _ _ _ _ _ Hs) as Hall.
  destruct op as [[txh rc]|e]; injection Hr as _ Ht;
    apply app_inv_head in Ht; now subst t.
Qed.

End results.

(** * The properties of the specification *)

(** ** Validation before the network *)

(** C3. A summary of more than 140 characters makes [inscribe] raise
    [ValueError], the exception the client raises for invalid input, as its
    first step: the coroutine awaits nothing, so the event loop makes no
    round-trip and leaves the history of the node as it was; the same through
    [inscribe_sync]. *)
Theorem inscribe_long_summary_raises_before_any_call
    (polls : nat) (node : Node) (h : list rpc) (self : Custos)
    (block summary content : Py.str) :
  (140 < length summary)%nat ->
  inscribe polls self block summary content
  = Throw (ValueError (summary_too_long (length summary)))
  /\ run_until_complete node h (inscribe polls self block summary content)
     = (Raise (ValueError (summary_too_long (length summary))), h)
  /\ inscribe_sync polls false node h self block summary content
     = (Raise (ValueError (summary_too_long (length summary))), h).
Proof.
  intros Hs. apply Nat.ltb_lt in Hs.
  assert (inscribe polls self block summary content
          = Throw (ValueError (summary_too_long (length summary)))) as He.
  { unfold inscribe. now rewrite Hs. }
  unfold inscribe_sync, asyncio.run. rewrite He. simpl. auto.
Qed.

Lemma inscribe_long_summary_witness :
  run_until_complete (sim_node 0) []
    (inscribe 3 agent (Py.lit "build") (replicate 141 120) (Py.lit "content"))
  = (Raise (ValueError (summary_too_long 141)), []).
Proof.
  refine (proj1 (proj2 (inscribe_long_summary_raises_before_any_call
                          3 (sim_node 0) [] agent (Py.lit "build")
                          (replicate 141 120) (Py.lit "content") _))).
  simpl. lia.
Defined.

(** C4, as stated, fails: for a category that is not in [BLOCK_TYPE_MAP] the
    exception is the [KeyError] of the dict subscript, which is no
    [ValueError]. *)
Lemma inscribe_unknown_category_raises_KeyError :
  (Py.lit "finance" ∉ categories)
  /\ run_until_complete (sim_node 0) []
       (inscribe 3 agent (Py.lit "finance") (Py.lit "summary")
          (Py.lit "content"))
     = (Raise (KeyError (Py.lit "finance")), [])
  /\ forall why, KeyError (Py.lit "finance") <> ValueError why.
Proof.
  split; [|split].
  - apply BLOCK_TYPE_MAP_unknown. vm_compute. reflexivity.
  - vm_compute. reflexivity.
  - discriminate.
Qed.

(** C4, amended. For a category that is not in [BLOCK_TYPE_MAP], [inscribe]
    raises before any round-trip: [ValueError] when the summary is longer than
    140 characters, which is checked first, and otherwise the [KeyError] of
    the lookup, carrying the unknown name. *)
Theorem inscribe_unknown_category_raises_before_any_call
    (polls : nat) (node : Node) (h : list rpc) (self : Custos)
    (block summary content : Py.str) :
  block ∉ categories ->
  run_until_complete node h (inscribe polls self block summary content)
  = (Raise (if (140 <? length summary)%nat
            then ValueError (summary_too_long (length summary))
            else KeyError block), h).
Proof.
  intros Hb. apply BLOCK_TYPE_MAP_unknown in Hb.
  unfold inscribe. destruct (140 <? length summary)%nat; [reflexivity|].
  now rewrite Hb.
Qed.

Lemma inscribe_unknown_category_witness :
  run_until_complete (sim_node 0) []
    (inscribe 3 agent (Py.lit "finance") (Py.lit "summary") (Py.lit "content"))
  = (Raise (KeyError (Py.lit "finance")), []).
Proof.
  refine (inscribe_unknown_category_raises_before_any_call
            3 (sim_node 0) [] agent (Py.lit "finance") (Py.lit "summary")
            (Py.lit "content") _).
  apply BLOCK_TYPE_MAP_unknown. vm_compute. reflexivity.
Defined.

(** C10, as stated, fails: a proof identifier with a space between two bytes
    is no hexadecimal string, and yet [bytes.fromhex] decodes it and [attest]
    goes on to the node. *)
Lemma attest_accepts_spaced_hex :
  hexadecimal (Py.removeprefix (Py.lit "0xab cd") (Py.lit "0x")) = false
  /\ exists r t,
       run_until_complete (sim_node 0) []
         (attest 3 agent (Py.lit "0xab cd") true)
       = (Return r, t)
       /\ length t = 6%nat.
Proof.
  split; [reflexivity|].
  eexists _, _. split; [vm_compute; reflexivity | reflexivity].
Qed.

(** C10, amended. When the proof identifier, after an optional [0x] prefix
    is removed, holds a character that is neither a hexadecimal digit nor
    ASCII whitespace, or an odd number of hexadecimal digits, or holds no
    whitespace and is not a hexadecimal string, [attest] raises the
    [ValueError] of [bytes.fromhex] as its first step, with no round-trip.
    Whitespace in front of a byte is skipped, not rejected. *)
Theorem attest_rejects_non_hexadecimal_before_any_call
    (polls : nat) (node : Node) (h : list rpc) (self : Custos)
    (proof_hash : Py.str) (valid : bool) :
  let t := Py.removeprefix proof_hash (Py.lit "0x") in
  Exists (fun c => Py.isxdigit c || Py.isspace c = false) t
  \/ Nat.Odd (xdigits t)
  \/ (Forall (fun c => Py.isspace c = false) t /\ hexadecimal t = false) ->
  attest polls self proof_hash valid = Throw (ValueError non_hexadecimal)
  /\ run_until_complete node h (attest polls self proof_hash valid)
     = (Raise (ValueError non_hexadecimal), h).
Proof.
  intros t Hbad.
  assert (Py.fromhex t = None) as Hf.
  { destruct (Py.fromhex t) as [bs|] eqn:Hf; [|reflexivity]. exfalso.
    destruct (fromhex_accepts _ _ Hf) as [Hall Hev].
    assert (Exists (fun c => Py.isxdigit c || Py.isspace c = false) t
            \/ Nat.Odd (xdigits t)) as [Hex|Hodd].
    { destruct Hbad as [Hex|[Hodd|[Hns Hnh]]]; [now left | now right |].
      unfold hexadecimal in Hnh. apply andb_false_iff in Hnh.
      destruct Hnh as [Hnx|Hne].
      - left. clear Hf Hall Hev. induction t as [|c t' IH]; [discriminate|].
        inversion Hns as [|? ? Hc Hns']; subst. simpl in Hnx.
        destruct (Py.isxdigit c) eqn:Hx.
        + apply Exists_cons_tl, IH; assumption.
        + apply Exists_cons_hd. now rewrite Hx, Hc.
      - right. assert (xdigits t = length t) as ->.
        { unfold xdigits. clear Hf Hev Hne.
          induction Hall as [|c t' Hc Hall IH]; [reflexivity|].
          inversion Hns as [|? ? Hsc Hns']; subst. simpl.
          rewrite Hsc, orb_false_r in Hc. rewrite Hc. simpl.
          now rewrite IH. }
        apply Nat.odd_spec. rewrite <- Nat.negb_even. now rewrite Hne. }
    - apply Exists_exists in Hex. destruct Hex as (c & Hin & Hc).
      rewrite Forall_forall in Hall. specialize (Hall c Hin). congruence.
    - destruct (Nat.Even_Odd_False _ Hev Hodd). }
  rewrite (attest_rejects polls self proof_hash valid Hf). auto.
Qed.

Lemma attest_rejects_odd_hex_witness :
  run_until_complete (sim_node 0) [] (attest 3 agent (Py.lit "0xabc") true)
  = (Raise (ValueError non_hexadecimal), []).
Proof.
  refine (proj2 (attest_rejects_non_hexadecimal_before_any_call
                   3 (sim_node 0) [] agent (Py.lit "0xabc") true _)).
  right. left. exists 1%nat. reflexivity.
Defined.

(** ** Digest and encoding *)

(** C6. The digest [inscribe] commits to is computed without any round-trip
    and is the SHA-256 of the encoded content, 32 bytes long; it is a function
    of the content alone: whatever the category, the summary, the client and
    the answers of the node, every transaction that is built or submitted
    carries that digest, and a run that returns has submitted it. *)
Theorem content_digest_is_local_sha256_of_content
    (polls : nat) (node : Node) (h t : list rpc) (self : Custos)
    (block summary content : Py.str) (encoded : Py.bytes)
    (o : outcome InscribeResult.t) :
  Py.encode content = Some encoded ->
  content_hash_of content = Ret (hashlib.sha256 encoded)
  /\ length (hashlib.sha256 encoded) = 32%nat
  /\ (run_until_complete node h (inscribe polls self block summary content)
      = (o, h ++ t) ->
      exists block_type,
        let f := inscribeCycle block_type summary (hashlib.sha256 encoded) in
        Forall (carries f) t
        /\ ((exists r, o = Return r) ->
            exists nonce gas_price d,
              eth_sendRawTransaction (signed_tx self f nonce gas_price d) ∈ t)).
Proof.
  intros Hc. split; [exact (content_hash_of_encoded _ _ Hc)|].
  split; [apply length_sha256|].
  intros Hr. destruct o as [r|e].
  - destruct (inscribe_returns _ _ _ _ _ _ _ _ _ Hr)
      as (bt & enc & nonce & gp & d & txh & n & rc & cycles
          & _ & Hb & Hc' & _ & _ & _ & _ & Ht & _).
    assert (enc = encoded) as -> by congruence.
    destruct (inscribe_carries _ _ _ _ _ _ _ _ _ _ Hc Hr) as (bt' & Hall).
    rewrite <- !app_assoc in Ht. apply app_inv_head in Ht. subst t.
    exists bt. simpl. split.
    + pose proof Hall as Hall0.
      inversion Hall as [|? ? _ Hall1]; subst.
      inversion Hall1 as [|? ? _ Hall2]; subst.
      inversion Hall2 as [|? ? H3 _]; subst.
      simpl in H3. injection H3 as ->. exact Hall0.
    + intros _. exists nonce, gp, d. unfold submission. simpl.
      do 4 apply list_elem_of_further. apply list_elem_of_here.
  - destruct (inscribe_carries _ _ _ _ _ _ _ _ _ _ Hc Hr) as (bt & Hall).
    exists bt. simpl. split; [exact Hall|]. intros [r Hr']. discriminate.
Qed.

Lemma content_digest_witness :
  content_hash_of (Py.lit "content")
  = Ret (hashlib.sha256 (Py.byte_of_N <$> Py.lit "content")).
Proof.
  refine (proj1 (content_digest_is_local_sha256_of_content
                   3 (sim_node 0) [] [] agent (Py.lit "build")
                   (Py.lit "summary") (Py.lit "content")
                   (Py.byte_of_N <$> Py.lit "content")
                   (Raise TimeExhausted) _)).
  reflexivity.
Defined.

(** C2. A proof identifier that decodes, with or without its [0x] prefix, is
    turned into exactly 32 bytes: the decoded bytes followed by zero bytes
    when they are fewer than 32, their first 32 when they are more, and
    themselves when they are 32; and these 32 bytes are the [proofHash] of
    every [attestProof] call that [attest] builds or submits. *)
Theorem attest_proof_hash_is_32_bytes
    (polls : nat) (node : Node) (h t : list rpc) (self : Custos)
    (proof_hash : Py.str) (valid : bool) (ph_bytes : Py.bytes)
    (o : outcome AttestResult.t) :
  Py.fromhex (Py.removeprefix proof_hash (Py.lit "0x")) = Some ph_bytes ->
  exists ph32,
    ph32_of proof_hash = Ret ph32
    /\ length ph32 = 32%nat
    /\ ((length ph_bytes < 32)%nat ->
        ph32 = ph_bytes ++ replicate (32 - length ph_bytes) x00)
    /\ ((32 < length ph_bytes)%nat -> ph32 = take 32 ph_bytes)
    /\ (length ph_bytes = 32%nat -> ph32 = ph_bytes)
    /\ (run_until_complete node h (attest polls self proof_hash valid)
        = (o, h ++ t) ->
        Forall (carries (attestProof (_agent_id self) ph32 valid)) t
        /\ ((exists r, o = Return r) ->
            exists nonce gas_price d,
              eth_sendRawTransaction
                (signed_tx self (attestProof (_agent_id self) ph32 valid)
                   nonce gas_price d) ∈ t)).
Proof.
  intros Hp. exists (take 32 (Py.ljust ph_bytes 32 x00)).
  split; [unfold ph32_of; now rewrite Hp|].
  split; [rewrite length_take, length_ljust; lia|].
  unfold Py.ljust.
  split; [intros Hl; apply take_ge; rewrite length_app, length_replicate; lia|].
  split.
  { intros Hl. replace (32 - length ph_bytes)%nat with 0%nat by lia.
    simpl. now rewrite app_nil_r. }
  split.
  { intros Hl. rewrite Hl. simpl. rewrite app_nil_r.
    apply take_ge. lia. }
  intros Hr. split; [exact (attest_carries _ _ _ _ _ _ _ _ _ Hp Hr)|].
  intros [r ->].
  destruct (attest_returns _ _ _ _ _ _ _ _ Hr)
    as (ph' & nonce & gp & d & txh & n & rc & Hp' & _ & _ & _ & Ht & _).
  assert (ph' = ph_bytes) as -> by congruence.
  apply app_inv_head in Ht. subst t.
  exists nonce, gp, d. unfold submission, Py.ljust. simpl.
  do 4 apply list_elem_of_further. apply list_elem_of_here.
Qed.

Lemma attest_proof_hash_witness :
  ph32_of (Py.lit "0xabcd")
  = Ret ("171"%byte :: "205"%byte :: replicate 30 x00).
Proof.
  destruct (attest_proof_hash_is_32_bytes
              3 (sim_node 0) [] [] agent (Py.lit "0xabcd") true
              ["171"%byte; "205"%byte] (Raise TimeExhausted) eq_refl)
    as (ph32 & Hret & _ & Hpad & _).
  rewrite Hret. f_equal. apply Hpad. simpl. lia.
Defined.

(** ** The proof identifier of a result *)

(** The proof identifier [inscribe] returns is made of the content alone:
    nothing the node answers enters it. *)
Lemma inscribe_proof_hash_ignores_the_node
    (polls : nat) (node : Node) (h h' : list rpc) (self : Custos)
    (block summary content : Py.str) (r : InscribeResult.t) :
  run_until_complete node h (inscribe polls self block summary content)
  = (Return r, h') ->
  exists encoded,
    Py.encode content = Some encoded
    /\ InscribeResult.proof_hash r
       = Py.lit "0x" ++ Py.hex (hashlib.sha256 encoded).
Proof.
  intros Hr.
  destruct (inscribe_returns _ _ _ _ _ _ _ _ _ Hr)
    as (bt & enc & nonce & gp & d & txh & n & rc & cycles
        & _ & _ & Hc & _ & _ & _ & _ & _ & ->).
  exists enc. split; [exact Hc | reflexivity].
Qed.

(** C1. Against a node whose contract emits the proof hash [aa..aa] in the
    receipt of the transaction, [inscribe] returns as proof identifier the
    hexadecimal SHA-256 of the content it computed itself, which is another
    value: the identifier is not read from the chain. *)
Theorem inscribe_proof_hash_is_not_read_from_the_chain :
  exists r t,
    run_until_complete (sim_node 1) []
      (inscribe 3 agent (Py.lit "research") (Py.lit "summary")
         (Py.lit "content"))
    = (Return r, t)
    /\ InscribeResult.proof_hash r
       = Py.lit
           "0xed7002b439e9ac845f22357d822bac1444730fbdb6016d3ec9432297b9ec9f73"
    /\ InscribeResult.proof_hash r
       = Py.lit "0x" ++ hashlib.hexdigest (Py.byte_of_N <$> Py.lit "content")
    /\ logs sim_receipt = [sim_proof_hash]
    /\ InscribeResult.proof_hash r <> Py.lit "0x" ++ Py.hex sim_proof_hash.
Proof.
  eexists _, _. split; [vm_compute; reflexivity|].
  split; [vm_compute; reflexivity|].
  split; [vm_compute; reflexivity|].
  split; [reflexivity|].
  vm_compute. discriminate.
Qed.

(** ** Results and failures of the pipeline *)

(** C5, as stated, fails for [attest]: it returns its result as soon as the
    receipt has come, reads no counter, and so returns even against a node
    whose counter cannot be read, where [inscribe] raises. *)
Lemma attest_returns_without_counter_read :
  (exists r t,
     run_until_complete (sim_node_without_counter 1) []
       (attest 3 agent (Py.lit "0xabcd") true)
     = (Return r, t)
     /\ List.existsb
          (fun c => match c with eth_call_totalCycles _ => true | _ => false end)
          t = false)
  /\ exists t,
       run_until_complete (sim_node_without_counter 1) []
         (inscribe 3 agent (Py.lit "research") (Py.lit "summary")
            (Py.lit "content"))
       = (Raise (Web3Error (-32000)), t).
Proof.
  split.
  - eexists _, _. split; [vm_compute; reflexivity | reflexivity].
  - eexists. vm_compute. reflexivity.
Qed.

(** C5, amended. [inscribe] returns a result only after the node has
    answered every round-trip up to submission, a poll has brought the
    receipt, and the read of [totalCycles] after it has been answered; the
    four fields of the result are made of the digest and of these answers.
    [attest] returns a result only after submission and receipt, and reads no
    counter. In both, an exception of the node at any round-trip ends the
    call with that exception, at that round-trip. *)
Theorem results_only_after_confirmation
    (polls : nat) (node : Node) (self : Custos) (h : list rpc) :
  (forall block summary content r h',
     run_until_complete node h (inscribe polls self block summary content)
     = (Return r, h') ->
     exists block_type encoded nonce gas_price d tx_hash n receipt cycles,
       let f := inscribeCycle block_type summary (hashlib.sha256 encoded) in
       let confirmed :=
         h ++ submission self f nonce gas_price d
           ++ replicate (S n) (poll tx_hash) in
       accepted self node h f nonce gas_price d tx_hash
       /\ (n < polls)%nat
       /\ node (h ++ submission self f nonce gas_price d
                  ++ replicate n (poll tx_hash)) (poll tx_hash)
          = Return (Some receipt)
       /\ node confirmed (eth_call_totalCycles (_proxy self)) = Return cycles
       /\ h' = confirmed ++ [eth_call_totalCycles (_proxy self)]
       /\ r = inscribe_result (hashlib.sha256 encoded) tx_hash receipt cycles)
  /\ (forall proof_hash valid r h',
        run_until_complete node h (attest polls self proof_hash valid)
        = (Return r, h') ->
        exists ph32 nonce gas_price d tx_hash n receipt,
          let f := attestProof (_agent_id self) ph32 valid in
          accepted self node h f nonce gas_price d tx_hash
          /\ (n < polls)%nat
          /\ node (h ++ submission self f nonce gas_price d
                     ++ replicate n (poll tx_hash)) (poll tx_hash)
             = Return (Some receipt)
          /\ h' = h ++ submission self f nonce gas_price d
                    ++ replicate (S n) (poll tx_hash)
          /\ r = {| AttestResult.tx_hash := Py.hex tx_hash |})
  /\ (forall block summary content o t1 c t2 e,
        run_until_complete node h (inscribe polls self block summary content)
        = (o, h ++ t1 ++ c :: t2) ->
        node (h ++ t1) c = Raise e ->
        o = Raise e /\ t2 = [])
  /\ (forall proof_hash valid o t1 c t2 e,
        run_until_complete node h (attest polls self proof_hash valid)
        = (o, h ++ t1 ++ c :: t2) ->
        node (h ++ t1) c = Raise e ->
        o = Raise e /\ t2 = []).
Proof.
  split; [|split; [|split]].
  - intros block summary content r h' Hr.
    destruct (inscribe_returns _ _ _ _ _ _ _ _ _ Hr)
      as (bt & enc & nonce & gp & d & txh & n & rc & cycles
          & _ & _ & _ & Hacc & Hn & Hrc & Hcy & Hh & Hres).
    exists bt, enc, nonce, gp, d, txh, n, rc, cycles. simpl. auto 10.
  - intros proof_hash valid r h' Hr.
    destruct (attest_returns _ _ _ _ _ _ _ _ Hr)
      as (ph & nonce & gp & d & txh & n & rc & _ & Hacc & Hn & Hrc & Hh & Hres).
    exists (take 32 (Py.ljust ph 32 x00)), nonce, gp, d, txh, n, rc.
    simpl. auto 10.
  - intros block summary content o t1 c t2 e. apply run_raises.
  - intros proof_hash valid o t1 c t2 e. apply run_raises.
Qed.

Lemma results_witness :
  exists encoded tx_hash receipt cycles,
    (run_until_complete (sim_node 1) []
       (inscribe 3 agent (Py.lit "research") (Py.lit "summary")
          (Py.lit "content"))).1
    = Return (inscribe_result encoded tx_hash receipt cycles).
Proof.
  assert (exists r h',
            run_until_complete (sim_node 1) []
              (inscribe 3 agent (Py.lit "research") (Py.lit "summary")
                 (Py.lit "content")) = (Return r, h')) as (r & h' & Hr).
  { eexists _, _. vm_compute. reflexivity. }
  rewrite Hr.
  destruct (proj1 (results_only_after_confirmation 3 (sim_node 1) agent [])
              (Py.lit "research") (Py.lit "summary") (Py.lit "content")
              r h' Hr)
    as (bt & enc & nonce & gp & d & txh & n & rc & cycles & _ & _ & _ & _ & _
        & Hres).
  exists (hashlib.sha256 enc), txh, rc, cycles. simpl. f_equal. exact Hres.
Defined.

(** C7. When the transaction has been submitted (the summary could be
    encoded for the call, and the node answered the round-trips up to the
    submission) and none of the polls that fit in the wait of
    [wait_for_transaction_receipt], bounded by the timeout web3 gives it
    when the caller gives none, as here, brings a receipt, [inscribe] raises
    [TimeExhausted], the timeout exception of web3, after exactly these
    polls: the call ends, it returns no result, and it does not go on to
    read the counter. The same holds through [inscribe_sync]. *)
Theorem inscribe_times_out_without_receipt
    (polls : nat) (node : Node) (h : list rpc) (self : Custos)
    (block summary content : Py.str) (block_type : Z)
    (summary_bytes encoded : Py.bytes)
    (nonce gas_price : Z) (d : TxDefaults) (tx_hash : Py.bytes) :
  let f := inscribeCycle block_type summary (hashlib.sha256 encoded) in
  (length summary <= 140)%nat ->
  BLOCK_TYPE_MAP !! block = Some block_type ->
  Py.encode content = Some encoded ->
  Py.encode summary = Some summary_bytes ->
  accepted self node h f nonce gas_price d tx_hash ->
  (forall i, (i < polls)%nat ->
     node (h ++ submission self f nonce gas_price d
             ++ replicate i (poll tx_hash)) (poll tx_hash) = Return None) ->
  run_until_complete node h (inscribe polls self block summary content)
  = (Raise TimeExhausted,
     h ++ submission self f nonce gas_price d
       ++ replicate polls (poll tx_hash))
  /\ inscribe_sync polls false node h self block summary content
     = (Raise TimeExhausted,
        h ++ submission self f nonce gas_price d
          ++ replicate polls (poll tx_hash)).
Proof.
  intros f Hs Hb Hc Hsb Hacc Hnone.
  assert (run_until_complete node h (inscribe polls self block summary content)
          = (Raise TimeExhausted,
             h ++ submission self f nonce gas_price d
               ++ replicate polls (poll tx_hash))) as Hr; subst f.
  { rewrite (inscribe_run _ _ _ _ _ _ _ _ _ Hs Hb Hc).
    pose proof (inscribeCycle_encodable _ _ _ _ encoded Hb Hsb) as Habi.
    now rewrite (submit_and_wait_times_out _ _ _ _ _ _ _ _ _ Habi Hacc Hnone). }
  split; [exact Hr|]. unfold inscribe_sync, asyncio.run. exact Hr.
Qed.

Lemma inscribe_times_out_witness :
  (run_until_complete (sim_node 5) []
     (inscribe 3 agent (Py.lit "research") (Py.lit "summary")
        (Py.lit "content"))).1
  = Raise TimeExhausted.
Proof.
  rewrite (proj1 (inscribe_times_out_without_receipt
                    3 (sim_node 5) [] agent (Py.lit "research")
                    (Py.lit "summary") (Py.lit "content") 1
                    (Py.byte_of_N <$> Py.lit "summary")
                    (Py.byte_of_N <$> Py.lit "content") 5 10
                    {| gas := 100000; chainId := 8453 |} sim_tx_id
                    ltac:(simpl; lia) ltac:(vm_compute; reflexivity)
                    ltac:(reflexivity) ltac:(reflexivity)
                    ltac:(repeat split; reflexivity)
                    ltac:(intros [|[|[|i]]] Hi; [reflexivity..|lia]))).
  reflexivity.
Defined.

(** A summary that cannot be encoded stops the call before anything is
    submitted: the sequence number and the gas price have been read, and
    building the transaction raises. *)
Lemma inscribe_unencodable_summary_is_not_submitted
    (polls : nat) (node : Node) (h : list rpc) (self : Custos)
    (block summary content : Py.str) (block_type : Z) (encoded : Py.bytes)
    (nonce gas_price : Z) :
  (length summary <= 140)%nat ->
  BLOCK_TYPE_MAP !! block = Some block_type ->
  Py.encode content = Some encoded ->
  Py.encode summary = None ->
  node h (eth_getTransactionCount (eth.address (_account self)))
  = Return nonce ->
  node (h ++ [eth_getTransactionCount (eth.address (_account self))])
    eth_gasPrice = Return gas_price ->
  run_until_complete node h (inscribe polls self block summary content)
  = (Raise ABIEncodeError,
     h ++ [eth_getTransactionCount (eth.address (_account self));
           eth_gasPrice]).
Proof.
  intros Hs Hb Hc Hsb H1 H2.
  rewrite (inscribe_run _ _ _ _ _ _ _ _ _ Hs Hb Hc), submit_and_wait_run.
  rewrite H1, H2. unfold eth.abi_encodable. rewrite Hsb.
  now rewrite andb_false_r.
Qed.

(** ** The synchronous wrapper *)



(** ** Sequence numbers *)

Section sequence_numbers.

Variable polls : nat.
Variable node : Node.
Variable self : Custos.

Lemma count_sends_app (h t : list rpc) :
  count_sends (h ++ t) = (count_sends h + count_sends t)%nat.
Proof. unfold count_sends. now rewrite List.filter_app, length_app. Qed.

Lemma count_sends_polls (n : nat) (tx_hash : Py.bytes) :
  count_sends (replicate n (poll tx_hash)) = 0%nat.
Proof. induction n as [|n IH]; [reflexivity | exact IH]. Qed.

Lemma submitted_nonces_app (h t : list rpc) :
  submitted_nonces (h ++ t) = submitted_nonces h ++ submitted_nonces t.
Proof. apply omap_app. Qed.

Lemma submitted_nonces_polls (n : nat) (tx_hash : Py.bytes) :
  submitted_nonces (replicate n (poll tx_hash)) = [].
Proof. induction n as [|n IH]; [reflexivity | exact IH]. Qed.

Lemma submit_and_wait_submits (f : contract_function) (h h' : list rpc)
    (o : outcome (Py.bytes * TxReceipt)) :
  run_until_complete node h (submit_and_wait polls self f) = (o, h') ->
  exists t, h' = h ++ t /\ submits_once node self h o t.
Proof.
  rewrite submit_and_wait_run.
  destruct (node h _) as [nonce|e] eqn:H1.
  2:{ intros [= <- <-]. eexists. split; [reflexivity|]. left.
      repeat split. discriminate. }
  destruct (node (h ++ _) eth_gasPrice) as [gp|e] eqn:H2.
  2:{ intros [= <- <-]. eexists. split; [reflexivity|]. left.
      repeat split. discriminate. }
  destruct (eth.abi_encodable f).
  2:{ intros [= <- <-]. eexists. split; [reflexivity|]. left.
      repeat split. discriminate. }
  destruct (node _ (eth_estimateGas _ _ _)) as [g|e] eqn:H3.
  2:{ intros [= <- <-]. eexists. split; [reflexivity|]. left.
      repeat split. discriminate. }
  destruct (node _ eth_chainId) as [ch|e] eqn:H4.
  2:{ intros [= <- <-]. eexists. split; [reflexivity|]. left.
      repeat split. discriminate. }
  cbv zeta.
  destruct (node _ (eth_sendRawTransaction _)) as [txh|e] eqn:H5.
  2:{ intros [= <- <-]. eexists. split; [reflexivity|]. right.
      exists nonce. repeat split. exact H1. }
  destruct (run_until_complete node _ (eth.wait_for_transaction_receipt _ _))
    as [ow h6] eqn:H6.
  destruct (wait_trace _ _ _ _ _ _ H6) as (n & _ & ->).
  intros Hr.
  exists (submission self f nonce gp {| gas := g; chainId := ch |}
          ++ replicate n (poll txh)).
  split.
  { destruct ow; injection Hr as _ <-; now rewrite <- !app_assoc. }
  right. exists nonce. split; [exact H1|].
  rewrite submitted_nonces_app, count_sends_app, submitted_nonces_polls,
    count_sends_polls. split; reflexivity.
Qed.

Lemma inscribe_submits (h h' : list rpc) (block summary content : Py.str)
    (o : outcome InscribeResult.t) :
  run_until_complete node h (inscribe polls self block summary content)
  = (o, h') ->
  exists t, h' = h ++ t /\ submits_once node self h o t.
Proof.
  intros Hr.
  destruct (inscribe_local polls self block summary content)
    as [[e He]|(bt & encoded & Hs & Hb & Hc)].
  { rewrite He in Hr. injection Hr as <- <-. exists [].
    split; [now rewrite app_nil_r|]. left. repeat split. discriminate. }
  rewrite (inscribe_run _ _ _ _ _ _ _ _ _ Hs Hb Hc) in Hr.
  destruct (run_until_complete node h (submit_and_wait _ _ _))
    as [op h5] eqn:Hp.
  destruct (submit_and_wait_submits _ _ _ _ Hp) as (t & -> & Hsub).
  destruct op as [[txh rc]|e].
  - destruct Hsub as [(_ & _ & Hno)|(n & Hn & Hsn & Hcs)].
    { destruct (Hno (txh, rc)). reflexivity. }
    exists (t ++ [eth_call_totalCycles (_proxy self)]).
    split.
    { destruct (node _ _); injection Hr as _ <-; now rewrite <- app_assoc. }
    right. exists n. split; [exact Hn|].
    rewrite submitted_nonces_app, count_sends_app, Hsn, Hcs.
    split; reflexivity.
  - injection Hr as <- <-. exists t. split; [reflexivity|].
    destruct Hsub as [(Hsn & Hcs & _)|Hsub]; [|right; exact Hsub].
    left. repeat split; try assumption. discriminate.
Qed.

End sequence_numbers.

(** C9, as stated, fails: two [inscribe] calls of one client gathered on
    one event loop both read the sequence number before either has
    submitted, and both transactions go out under number 5. *)
Lemma concurrent_inscribes_submit_the_same_sequence_number :
  exists r1 r2 t,
    gather [true; false] (sim_node 1) []
      (inscribe 3 agent (Py.lit "research") (Py.lit "first") (Py.lit "a"))
      (inscribe 3 agent (Py.lit "build") (Py.lit "second") (Py.lit "b"))
    = (Return r1, Return r2, t)
    /\ submitted_nonces t = [5; 5]%Z
    /\ ~ NoDup (submitted_nonces t).
Proof.
  eexists _, _, _. split; [vm_compute; reflexivity|].
  split; [reflexivity|].
  intros Hnd. inversion Hnd as [|? ? Hnin _]; subst.
  apply Hnin. apply list_elem_of_here.
Qed.

(** C9, amended. The client holds no lock and caches no sequence number:
    each call submits under the number the node gives it at its own start.
    Hence two [inscribe] calls of one client that run one after the other,
    against a node whose transaction count counts the submissions it has
    received, submit under pairwise distinct sequence numbers, and under
    consecutive ones when both return. *)
Theorem sequential_inscribes_submit_distinct_sequence_numbers
    (polls : nat) (node : Node) (n0 : Z) (self : Custos) (h h1 h2 : list rpc)
    (block1 summary1 content1 block2 summary2 content2 : Py.str)
    (o1 o2 : outcome InscribeResult.t) :
  counts_submissions n0 node ->
  run_until_complete node h (inscribe polls self block1 summary1 content1)
  = (o1, h1) ->
  run_until_complete node h1 (inscribe polls self block2 summary2 content2)
  = (o2, h2) ->
  NoDup (submitted_nonces (drop (length h) h2))
  /\ ((exists r1, o1 = Return r1) -> (exists r2, o2 = Return r2) ->
      submitted_nonces (drop (length h) h2)
      = [n0 + Z.of_nat (count_sends h); n0 + Z.of_nat (count_sends h) + 1]%Z).
Proof.
  intros Hcount H1 H2.
  destruct (inscribe_submits _ _ _ _ _ _ _ _ _ H1) as (t1 & -> & Hs1).
  destruct (inscribe_submits _ _ _ _ _ _ _ _ _ H2) as (t2 & -> & Hs2).
  rewrite <- app_assoc, drop_app_length, submitted_nonces_app.
  unfold submits_once in Hs1, Hs2. rewrite !Hcount in Hs1, Hs2.
  rewrite count_sends_app in Hs2.
  destruct Hs1 as [(Hn1 & Hc1 & Hno1)|(n1 & Hq1 & Hn1 & Hc1)];
    destruct Hs2 as [(Hn2 & Hc2 & Hno2)|(n2 & Hq2 & Hn2 & Hc2)];
    rewrite Hn1, Hn2; simpl.
  - split; [constructor|]. intros [r1 ->]. destruct (Hno1 r1). reflexivity.
  - split; [apply NoDup_singleton|].
    intros [r1 ->]. destruct (Hno1 r1). reflexivity.
  - split; [apply NoDup_singleton|].
    intros _ [r2 ->]. destruct (Hno2 r2). reflexivity.
  - injection Hq1 as <-. injection Hq2 as <-. rewrite Hc1.
    replace (n0 + Z.of_nat (count_sends h + 1))%Z
      with (n0 + Z.of_nat (count_sends h) + 1)%Z by lia.
    split; [|reflexivity].
    apply NoDup_cons. split; [|apply NoDup_singleton].
    rewrite list_elem_of_singleton. lia.
Qed.

Lemma sequential_inscribes_witness :
  NoDup
    (submitted_nonces
       (run_until_complete (sim_node 1)
          (run_until_complete (sim_node 1) []
             (inscribe 3 agent (Py.lit "research") (Py.lit "first")
                (Py.lit "a"))).2
          (inscribe 3 agent (Py.lit "build") (Py.lit "second")
             (Py.lit "b"))).2).
Proof.
  destruct (run_until_complete (sim_node 1) []
              (inscribe 3 agent (Py.lit "research") (Py.lit "first")
                 (Py.lit "a"))) as [o1 h1] eqn:H1.
  cbn [snd].
  destruct (run_until_complete (sim_node 1) h1
              (inscribe 3 agent (Py.lit "build") (Py.lit "second")
                 (Py.lit "b"))) as [o2 h2] eqn:H2.
  cbn [snd].
  exact (proj1 (sequential_inscribes_submit_distinct_sequence_numbers
                  3 (sim_node 1) 5 agent [] h1 h2 _ _ _ _ _ _ o1 o2
                  (fun _ _ => eq_refl) H1 H2)).
Defined.

(** * Further properties of the client *)

(** ** Prefixes, case and padding of hexadecimal input *)

Lemma startswith_app (p s : Py.str) : Py.startswith (p ++ s) p = true.
Proof.
  induction p as [|c p IH]; [destruct s; reflexivity|].
  simpl. now rewrite N.eqb_refl, IH.
Qed.

Lemma removeprefix_app (p s : Py.str) : Py.removeprefix (p ++ s) p = s.
Proof.
  unfold Py.removeprefix. rewrite startswith_app. apply drop_app_length.
Qed.

Lemma removeprefix_without (p s : Py.str) :
  Py.startswith s p = false -> Py.removeprefix s p = s.
Proof. intros Hs. unfold Py.removeprefix. now rewrite Hs. Qed.

(** X1. A key given without the [0x] prefix and the same key given with it
    build the same client, or fail with the same exception. *)
Theorem Custos_init_prefix_optional
    (from_key : Py.str -> outcome eth.LocalAccount)
    (to_checksum_address : Py.str -> outcome ChecksumAddress)
    (private_key : Py.str) (agent_id : Z) (proxy_address : Py.str) :
  Py.startswith private_key (Py.lit "0x") = false ->
  Custos_init from_key to_checksum_address private_key agent_id proxy_address
  = Custos_init from_key to_checksum_address (Py.lit "0x" ++ private_key)
      agent_id proxy_address.
Proof.
  intros Hs. unfold Custos_init.
  now rewrite Hs, (startswith_app (Py.lit "0x") private_key).
Qed.

Lemma Custos_init_prefix_optional_witness :
  Custos_init (fun _ => Return (_account agent))
    (fun _ => Return PROXY_ADDRESS) (Py.lit "ab12") 1 (Py.lit "0x9B5F")
  = Custos_init (fun _ => Return (_account agent))
      (fun _ => Return PROXY_ADDRESS) (Py.lit "0xab12") 1 (Py.lit "0x9B5F").
Proof.
  exact (Custos_init_prefix_optional (fun _ => Return (_account agent))
           (fun _ => Return PROXY_ADDRESS)
           (Py.lit "ab12") 1 (Py.lit "0x9B5F") eq_refl).
Defined.

Lemma take_ljust_exact (b : Py.bytes) :
  length b = 32%nat -> take 32 (Py.ljust b 32 x00) = b.
Proof.
  intros Hl. unfold Py.ljust. rewrite Hl. simpl. rewrite app_nil_r.
  apply take_ge. lia.
Qed.

(** 32 bytes, written in hexadecimal with the prefix, are read back as
    themselves. *)
Lemma ph32_of_hex (b : Py.bytes) :
  length b = 32%nat -> ph32_of (Py.lit "0x" ++ Py.hex b) = Ret b.
Proof.
  intros Hl. unfold ph32_of. rewrite removeprefix_app, fromhex_hex. simpl.
  unfold mret, coro_ret. f_equal. now apply take_ljust_exact.
Qed.

(** X3. The proof identifier a returned [inscribe] gives, handed to
    [attest], is read back as the 32 bytes of the SHA-256 of the content:
    the attestation is about the digest that was inscribed. *)
Theorem attest_of_inscribed_proof_hash_is_the_digest
    (polls : nat) (node : Node) (h h' : list rpc) (self : Custos)
    (block summary content : Py.str) (r : InscribeResult.t) :
  run_until_complete node h (inscribe polls self block summary content)
  = (Return r, h') ->
  exists encoded,
    Py.encode content = Some encoded
    /\ ph32_of (InscribeResult.proof_hash r) = Ret (hashlib.sha256 encoded)
    /\ forall self' valid,
         attest polls self' (InscribeResult.proof_hash r) valid
         = attest polls self'
             (Py.lit "0x" ++ Py.hex (hashlib.sha256 encoded)) valid.
Proof.
  intros Hr.
  destruct (inscribe_proof_hash_ignores_the_node _ _ _ _ _ _ _ _ _ Hr)
    as (encoded & Hc & Hp).
  exists encoded. split; [exact Hc|]. rewrite Hp.
  split; [apply ph32_of_hex, length_sha256 | reflexivity].
Qed.

Lemma attest_of_inscribed_witness :
  exists r h' encoded,
    run_until_complete (sim_node 1) []
      (inscribe 3 agent (Py.lit "research") (Py.lit "summary")
         (Py.lit "content")) = (Return r, h')
    /\ ph32_of (InscribeResult.proof_hash r) = Ret (hashlib.sha256 encoded).
Proof.
  assert (exists r h',
            run_until_complete (sim_node 1) []
              (inscribe 3 agent (Py.lit "research") (Py.lit "summary")
                 (Py.lit "content")) = (Return r, h')) as (r & h' & Hr).
  { eexists _, _. vm_compute. reflexivity. }
  destruct (attest_of_inscribed_proof_hash_is_the_digest _ _ _ _ _ _ _ _ _ Hr)
    as (encoded & _ & Hp & _).
  exists r, h', encoded. split; [exact Hr | exact Hp].
Defined.

Lemma hex_lower (b : Py.bytes) :
  Forall (fun c => lower_xdigit c = true) (Py.hex b).
Proof.
  induction b as [|x b IH]; [constructor|].
  simpl. constructor; [destruct x; reflexivity|].
  constructor; [destruct x; reflexivity | exact IH].
Qed.

Lemma length_hex (b : Py.bytes) : length (Py.hex b) = (2 * length b)%nat.
Proof. induction b as [|x b IH]; simpl; [reflexivity | rewrite IH; lia]. Qed.

(** X4. The proof identifier of every returned result has 66 characters:
    [0x] and then 64 digits or lowercase letters [a] to [f]. *)
Theorem inscribe_proof_hash_format
    (polls : nat) (node : Node) (h h' : list rpc) (self : Custos)
    (block summary content : Py.str) (r : InscribeResult.t) :
  run_until_complete node h (inscribe polls self block summary content)
  = (Return r, h') ->
  length (InscribeResult.proof_hash r) = 66%nat
  /\ take 2 (InscribeResult.proof_hash r) = Py.lit "0x"
  /\ Forall (fun c => lower_xdigit c = true)
       (drop 2 (InscribeResult.proof_hash r)).
Proof.
  intros Hr.
  destruct (inscribe_proof_hash_ignores_the_node _ _ _ _ _ _ _ _ _ Hr)
    as (encoded & _ & ->).
  split; [|split].
  - rewrite length_app, length_hex, length_sha256. reflexivity.
  - reflexivity.
  - apply hex_lower.
Qed.

Lemma inscribe_proof_hash_format_witness :
  exists r h',
    run_until_complete (sim_node 1) []
      (inscribe 3 agent (Py.lit "research") (Py.lit "summary")
         (Py.lit "content")) = (Return r, h')
    /\ length (InscribeResult.proof_hash r) = 66%nat.
Proof.
  assert (exists r h',
            run_until_complete (sim_node 1) []
              (inscribe 3 agent (Py.lit "research") (Py.lit "summary")
                 (Py.lit "content")) = (Return r, h')) as (r & h' & Hr).
  { eexists _, _. vm_compute. reflexivity. }
  exists r, h'. split; [exact Hr|].
  exact (proj1 (inscribe_proof_hash_format _ _ _ _ _ _ _ _ _ Hr)).
Defined.

(** X5. [attest] takes the proof identifier with or without the [0x]
    prefix: both spellings are the same call. *)
Theorem attest_prefix_optional
    (polls : nat) (self : Custos) (proof_hash : Py.str) (valid : bool) :
  Py.startswith proof_hash (Py.lit "0x") = false ->
  attest polls self (Py.lit "0x" ++ proof_hash) valid
  = attest polls self proof_hash valid.
Proof.
  intros Hs. unfold attest, ph32_of.
  now rewrite removeprefix_app, (removeprefix_without _ _ Hs).
Qed.

Lemma attest_prefix_optional_witness :
  attest 3 agent (Py.lit "0xabcd") true = attest 3 agent (Py.lit "abcd") true.
Proof.
  exact (attest_prefix_optional 3 agent (Py.lit "abcd") true eq_refl).
Defined.

(** Case analysis on every comparison of code points in the goal. *)
Ltac compare_code_points :=
  repeat match goal with
         | |- context [?a <=? ?b] => destruct (N.leb_spec a b)
         | |- context [?a <? ?b] => destruct (N.ltb_spec a b)
         | |- context [?a =? ?b] => destruct (N.eqb_spec a b)
         end;
  simpl in *; try reflexivity; try discriminate; try lia;
  try (f_equal; lia).

Lemma isspace_upper (c : N) : Py.isspace (upper_xdigit c) = Py.isspace c.
Proof. unfold upper_xdigit, Py.isspace. compare_code_points. Qed.

Lemma digit_value_upper (c : N) :
  Py.digit_value (upper_xdigit c) = Py.digit_value c.
Proof.
  unfold upper_xdigit.
  destruct (N.leb_spec 97 c) as [H1|H1]; [|reflexivity].
  destruct (N.leb_spec c 102) as [H2|H2]; [|reflexivity].
  assert (c = 97 \/ c = 98 \/ c = 99 \/ c = 100 \/ c = 101 \/ c = 102)
    as Hc by lia.
  simpl. destruct Hc as [->|[->|[->|[->|[->| ->]]]]]; reflexivity.
Qed.

Lemma fromhex_upper (t : Py.str) :
  Py.fromhex (upper_xdigit <$> t) = Py.fromhex t.
Proof.
  remember (length t) as n eqn:Hn. revert t Hn.
  induction n as [n IH] using lt_wf_ind. intros t Hn.
  destruct t as [|c rest]; [reflexivity|].
  rewrite fmap_cons. cbn [Py.fromhex].
  rewrite isspace_upper, digit_value_upper. simpl in Hn.
  destruct (Py.isspace c).
  - apply (IH (length rest)); [lia | reflexivity].
  - destruct (Py.digit_value c) as [top|]; [|reflexivity].
    destruct rest as [|d rest']; [reflexivity|].
    rewrite fmap_cons, digit_value_upper.
    destruct (Py.digit_value d) as [bot|]; [|reflexivity].
    simpl in Hn. now rewrite (IH (length rest') ltac:(lia) rest' eq_refl).
Qed.

Lemma upper_xdigit_eqb (c k : N) :
  k < 65 \/ 102 < k -> (k =? upper_xdigit c) = (k =? c).
Proof. intros Hk. unfold upper_xdigit. compare_code_points. Qed.

Lemma startswith_cons (c d : N) (s p : Py.str) :
  Py.startswith (d :: s) (c :: p) = (c =? d) && Py.startswith s p.
Proof. reflexivity. Qed.

Lemma startswith_upper (t : Py.str) :
  Py.startswith (upper_xdigit <$> t) (Py.lit "0x")
  = Py.startswith t (Py.lit "0x").
Proof.
  change (Py.lit "0x") with [48; 120].
  destruct t as [|a [|b t']]; [reflexivity| |].
  - rewrite !fmap_cons, !startswith_cons.
    now rewrite (upper_xdigit_eqb a 48) by lia.
  - rewrite !fmap_cons, !startswith_cons.
    rewrite (upper_xdigit_eqb a 48), (upper_xdigit_eqb b 120) by lia.
    destruct t'; reflexivity.
Qed.

Lemma removeprefix_upper (t : Py.str) :
  Py.removeprefix (upper_xdigit <$> t) (Py.lit "0x")
  = upper_xdigit <$> Py.removeprefix t (Py.lit "0x").
Proof.
  unfold Py.removeprefix. rewrite startswith_upper.
  destruct (Py.startswith t (Py.lit "0x")); [|reflexivity].
  symmetry. apply fmap_drop.
Qed.

(** X6. The case of the hexadecimal digits of a proof identifier does not
    matter to [attest]: with the letters [a] to [f] in upper case, the prefix
    as it was, it is the same call. *)
Theorem attest_case_insensitive
    (polls : nat) (self : Custos) (proof_hash : Py.str) (valid : bool) :
  attest polls self (upper_xdigit <$> proof_hash) valid
  = attest polls self proof_hash valid.
Proof.
  unfold attest, ph32_of. now rewrite removeprefix_upper, fromhex_upper.
Qed.

Lemma take_pad (n m : nat) (b : Py.bytes) :
  (n - length b <= m)%nat ->
  take n (b ++ replicate m x00) = take n (Py.ljust b n x00).
Proof.
  intros Hm. unfold Py.ljust.
  rewrite !take_app, !take_replicate. do 2 f_equal. lia.
Qed.

(** X7. [attest] reads no more than 32 bytes and cannot tell a missing byte
    from a zero byte: a proof identifier followed by further bytes past the
    32nd, or by zero bytes at any length, is the same call as the proof
    identifier alone. *)
Theorem attest_ignores_excess_and_trailing_zeros
    (polls : nat) (self : Custos) (p1 p2 : Py.str) (b1 b2 : Py.bytes)
    (valid : bool) :
  Py.fromhex (Py.removeprefix p1 (Py.lit "0x")) = Some b1 ->
  Py.fromhex (Py.removeprefix p2 (Py.lit "0x")) = Some b2 ->
  (exists extra, (32 <= length b1)%nat /\ b2 = b1 ++ extra)
  \/ (exists k, b2 = b1 ++ replicate k x00) ->
  attest polls self p1 valid = attest polls self p2 valid.
Proof.
  intros H1 H2 Hrel. unfold attest, ph32_of. rewrite H1, H2. simpl.
  assert (take 32 (Py.ljust b1 32 x00) = take 32 (Py.ljust b2 32 x00)) as ->;
    [|reflexivity].
  destruct Hrel as [(extra & Hl & ->)|(k & ->)].
  - unfold Py.ljust. rewrite <- !app_assoc.
    rewrite !take_app_le by lia. reflexivity.
  - unfold Py.ljust. rewrite <- app_assoc, <- replicate_add, length_app,
      length_replicate.
    rewrite (take_pad 32 (k + (32 - (length b1 + k))) b1) by lia.
    reflexivity.
Qed.

Lemma attest_ignores_excess_witness :
  attest 3 agent (Py.lit "0xabcd") true
  = attest 3 agent (Py.lit "0xabcd0000") true.
Proof.
  refine (attest_ignores_excess_and_trailing_zeros 3 agent
            (Py.lit "0xabcd") (Py.lit "0xabcd0000")
            ["171"%byte; "205"%byte]
            ["171"%byte; "205"%byte; x00; x00] true eq_refl eq_refl _).
  right. exists 2%nat. reflexivity.
Defined.

Lemma fromhex_spaces (t : Py.str) :
  Forall (fun c => Py.isspace c = true) t -> Py.fromhex t = Some [].
Proof.
  induction 1 as [|c t Hc _ IH]; [reflexivity|].
  simpl. now rewrite Hc.
Qed.

(** X8. An empty proof identifier is not refused: when nothing but ASCII
    whitespace is left once the prefix is removed, as for [""] and ["0x"],
    [attest] attests the proof hash of 32 zero bytes. *)
Theorem attest_of_empty_identifier_attests_zero
    (polls : nat) (node : Node) (h t : list rpc) (self : Custos)
    (proof_hash : Py.str) (valid : bool) (o : outcome AttestResult.t) :
  Forall (fun c => Py.isspace c = true)
    (Py.removeprefix proof_hash (Py.lit "0x")) ->
  ph32_of proof_hash = Ret (replicate 32 x00)
  /\ (run_until_complete node h (attest polls self proof_hash valid)
      = (o, h ++ t) ->
      Forall (carries (attestProof (_agent_id self) (replicate 32 x00) valid))
        t).
Proof.
  intros Hsp. pose proof (fromhex_spaces _ Hsp) as Hf.
  split.
  - unfold ph32_of. now rewrite Hf.
  - intros Hr. exact (attest_carries _ _ _ _ _ _ _ _ _ Hf Hr).
Qed.

Lemma attest_of_empty_identifier_witness :
  ph32_of (Py.lit "0x") = Ret (replicate 32 x00)
  /\ ph32_of [] = Ret (replicate 32 x00).
Proof.
  split.
  - exact (proj1 (attest_of_empty_identifier_attests_zero
                    3 (sim_node 0) [] [] agent (Py.lit "0x") true
                    (Raise TimeExhausted) (Forall_nil_2 _))).
  - exact (proj1 (attest_of_empty_identifier_attests_zero
                    3 (sim_node 0) [] [] agent [] true
                    (Raise TimeExhausted) (Forall_nil_2 _))).
Defined.

(** ** What [inscribe] checks before it calls the node *)

(** Past its three local checks, [inscribe] asks the node for the sequence
    number of its account. *)
Lemma inscribe_reaches_node
    (polls : nat) (node : Node) (h : list rpc) (self : Custos)
    (block summary content : Py.str) (block_type : Z) (encoded : Py.bytes) :
  (length summary <= 140)%nat ->
  BLOCK_TYPE_MAP !! block = Some block_type ->
  Py.encode content = Some encoded ->
  exists o t,
    run_until_complete node h (inscribe polls self block summary content)
    = (o, h ++ eth_getTransactionCount (eth.address (_account self)) :: t).
Proof.
  intros Hs Hb Hc. rewrite (inscribe_run _ _ _ _ _ _ _ _ _ Hs Hb Hc).
  destruct (run_until_complete node h (submit_and_wait _ _ _))
    as [op h5] eqn:Hp.
  assert (exists t5,
            h5 = h ++ eth_getTransactionCount (eth.address (_account self))
                   :: t5) as [t5 ->].
  { revert Hp. unfold submit_and_wait, mbind, coro_bind.
    rewrite run_bind. unfold eth.get_transaction_count.
    cbn [run_until_complete].
    destruct (node h _) as [nonce|e].
    - intros Hp. destruct (run_extends _ _ _ _ _ Hp) as [t ->].
      exists t. now rewrite <- app_assoc.
    - intros [= _ <-]. now exists []. }
  destruct op as [[txh rc]|e]; [|eauto].
  destruct (node _ _) as [cycles|e]; rewrite <- app_assoc; simpl; eauto.
Qed.

(** X9. [inscribe] ends without a single round-trip exactly when one of its
    three local checks fails: the summary is longer than 140 characters, the
    category is not in [BLOCK_TYPE_MAP], or the content cannot be encoded in
    UTF-8. In every other case the node is asked for the sequence number. *)
Theorem inscribe_fails_locally_iff
    (polls : nat) (node : Node) (h h' : list rpc) (self : Custos)
    (block summary content : Py.str) (o : outcome InscribeResult.t) :
  run_until_complete node h (inscribe polls self block summary content)
  = (o, h') ->
  (h' = h <->
   (140 < length summary)%nat \/ block ∉ categories
   \/ Py.encode content = None).
Proof.
  intros Hr. split.
  - intros ->.
    destruct (le_lt_dec (length summary) 140) as [Hs|Hs]; [|now left].
    destruct (BLOCK_TYPE_MAP !! block) as [bt|] eqn:Hb.
    2:{ right. left. now apply BLOCK_TYPE_MAP_unknown. }
    destruct (Py.encode content) as [encoded|] eqn:Hc; [|now right; right].
    exfalso.
    destruct (inscribe_reaches_node polls node h self _ _ _ _ _ Hs Hb Hc)
      as (o' & t & Hr').
    rewrite Hr in Hr'. injection Hr' as _ Hh.
    apply (f_equal length) in Hh. rewrite length_app in Hh. simpl in Hh. lia.
  - intros Hfail.
    assert (exists e, inscribe polls self block summary content = Throw e)
      as [e He].
    { unfold inscribe.
      destruct (140 <? length summary)%nat eqn:Hs; [eauto|].
      apply Nat.ltb_ge in Hs.
      destruct Hfail as [Hl|[Hb|Hc]]; [lia | |].
      - apply BLOCK_TYPE_MAP_unknown in Hb. rewrite Hb. eauto.
      - destruct (BLOCK_TYPE_MAP !! block); [|eauto].
        rewrite (content_hash_of_surrogate _ Hc). eauto. }
    rewrite He in Hr. now injection Hr as _ <-.
Qed.

Lemma inscribe_fails_locally_witness :
  (run_until_complete (sim_node 1) []
     (inscribe 3 agent (Py.lit "research") (Py.lit "summary") [0xDC00])).2
  = [].
Proof.
  destruct (run_until_complete (sim_node 1) []
              (inscribe 3 agent (Py.lit "research") (Py.lit "summary")
                 [0xDC00])) as [o h'] eqn:Hr.
  apply (inscribe_fails_locally_iff _ _ _ _ _ _ _ _ _ Hr).
  right. right. reflexivity.
Defined.

Lemma utf8_char_surrogate (c : N) :
  0xD800 <= c <= 0xDFFF -> Py.utf8_char c = None.
Proof. intros Hc. unfold Py.utf8_char. compare_code_points. Qed.

Lemma encode_surrogates (content : Py.str) :
  Exists (fun c => 0xD800 <= c <= 0xDFFF) content ->
  Py.encode content = None.
Proof.
  induction 1 as [c s Hc|c s _ IH]; simpl.
  - now rewrite (utf8_char_surrogate _ Hc).
  - rewrite IH. now destruct (Py.utf8_char c).
Qed.

(** X10. Content that holds a surrogate code point anywhere cannot be
    encoded, and [inscribe], with a valid summary and category, raises
    [UnicodeEncodeError] before any round-trip. *)
Theorem inscribe_surrogate_content_raises
    (polls : nat) (node : Node) (h : list rpc) (self : Custos)
    (block summary content : Py.str) :
  (length summary <= 140)%nat ->
  block ∈ categories ->
  Exists (fun c => 0xD800 <= c <= 0xDFFF) content ->
  run_until_complete node h (inscribe polls self block summary content)
  = (Raise UnicodeEncodeError, h).
Proof.
  intros Hs Hb Hc. unfold inscribe.
  replace (140 <? length summary)%nat with false
    by (symmetry; apply Nat.ltb_ge; exact Hs).
  destruct (BLOCK_TYPE_MAP !! block) as [bt|] eqn:Hl.
  - simpl. now rewrite (content_hash_of_surrogate _ (encode_surrogates _ Hc)).
  - apply BLOCK_TYPE_MAP_unknown in Hl. contradiction.
Qed.

Lemma inscribe_surrogate_content_witness :
  run_until_complete (sim_node 1) []
    (inscribe 3 agent (Py.lit "build") (Py.lit "summary") [0x61; 0xD83D])
  = (Raise UnicodeEncodeError, []).
Proof.
  refine (inscribe_surrogate_content_raises 3 (sim_node 1) [] agent
            (Py.lit "build") (Py.lit "summary") [0x61; 0xD83D] _ _ _).
  - simpl. lia.
  - apply list_elem_of_here.
  - apply Exists_cons_tl, Exists_cons_hd. lia.
Defined.

(** X14. [BLOCK_TYPE_MAP] gives different categories different codes, and
    every code is one of 0 to 4, so that it fits the [uint8] of the
    contract. *)
Theorem BLOCK_TYPE_MAP_injective (b1 b2 : Py.str) (code1 code2 : Z) :
  BLOCK_TYPE_MAP !! b1 = Some code1 ->
  BLOCK_TYPE_MAP !! b2 = Some code2 ->
  (0 <= code1 <= 4)%Z /\ (code1 = code2 -> b1 = b2).
Proof.
  unfold BLOCK_TYPE_MAP. intros H1 H2.
  repeat (apply lookup_insert_Some in H1;
          destruct H1 as [[<- <-]|[_ H1]];
          [|try (now rewrite lookup_empty in H1)]);
    (split; [lia|]);
    repeat (apply lookup_insert_Some in H2;
            destruct H2 as [[<- <-]|[_ H2]];
            [|try (now rewrite lookup_empty in H2)]);
    intros Hc; first [reflexivity | discriminate Hc].
Qed.

Lemma BLOCK_TYPE_MAP_injective_witness :
  (0 <= 2 <= 4)%Z /\ (2%Z = 2%Z -> Py.lit "market" = Py.lit "market").
Proof.
  apply (BLOCK_TYPE_MAP_injective (Py.lit "market") (Py.lit "market") 2 2);
    vm_compute; reflexivity.
Defined.

Lemma length_utf8_char (c : N) (bs : Py.bytes) :
  Py.utf8_char c = Some bs -> (length bs <= 4)%nat.
Proof.
  unfold Py.utf8_char.
  repeat match goal with
         | |- context [if ?b then _ else _] => destruct b
         end; intros [= <-]; simpl; lia.
Qed.

Lemma length_encode (s : Py.str) (bs : Py.bytes) :
  Py.encode s = Some bs -> (length bs <= 4 * length s)%nat.
Proof.
  revert bs. induction s as [|c s IH]; intros bs; simpl.
  - intros [= <-]. simpl. lia.
  - destruct (Py.utf8_char c) as [b|] eqn:Hc; [|discriminate].
    destruct (Py.encode s) as [rest|]; [|discriminate].
    intros [= <-]. rewrite length_app.
    pose proof (length_utf8_char _ _ Hc). specialize (IH rest eq_refl). lia.
Qed.

(** X15. The limit of 140 is on characters, not on bytes: the summary of a
    call that reached the node has at most 560 bytes in UTF-8, and no lower
    bound holds. *)
Theorem inscribed_summary_at_most_560_bytes
    (polls : nat) (node : Node) (h h' : list rpc) (self : Custos)
    (block summary content : Py.str) (o : outcome InscribeResult.t)
    (bs : Py.bytes) :
  run_until_complete node h (inscribe polls self block summary content)
  = (o, h') ->
  h' <> h ->
  Py.encode summary = Some bs ->
  (length bs <= 560)%nat.
Proof.
  intros Hr Hne Hb.
  pose proof (inscribe_fails_locally_iff _ _ _ _ _ _ _ _ _ Hr) as [_ Hloc].
  destruct (le_lt_dec (length summary) 140) as [Hs|Hs].
  - pose proof (length_encode _ _ Hb). lia.
  - destruct Hne. apply Hloc. now left.
Qed.

Lemma inscribed_summary_560_bytes_witness :
  exists bs,
    Py.encode (replicate 140 0x1F600) = Some bs /\ (length bs <= 560)%nat.
Proof.
  destruct (Py.encode (replicate 140 0x1F600)) as [bs|] eqn:Hb;
    [|vm_compute in Hb; discriminate].
  destruct (run_until_complete (sim_node 1) []
              (inscribe 3 agent (Py.lit "build") (replicate 140 0x1F600)
                 (Py.lit "content"))) as [o h'] eqn:Hr.
  assert (h' <> []) as Hne.
  { intros ->.
    pose proof (inscribe_fails_locally_iff _ _ _ _ _ _ _ _ _ Hr) as Hloc.
    destruct (proj1 Hloc eq_refl) as [Hl|[Hc|He]].
    - simpl in Hl. lia.
    - apply Hc. apply list_elem_of_here.
    - discriminate He. }
  exists bs. split; [reflexivity|].
  exact (inscribed_summary_at_most_560_bytes _ _ _ _ _ _ _ _ _ _ Hr Hne Hb).
Defined.

(** 140 characters outside the basic plane: 560 bytes. *)
Example summary_of_560_bytes :
  length <$> Py.encode (replicate 140 0x1F600) = Some 560%nat.
Proof. vm_compute. reflexivity. Qed.

(** ** The round-trips of one call *)

Ltac shape :=
  repeat (split || intro); try lia; try assumption; try reflexivity.

Section round_trips.

Variable polls : nat.
Variable node : Node.
Variable self : Custos.

Lemma submit_and_wait_trace (f : contract_function) (h h' : list rpc)
    (o : outcome (Py.bytes * TxReceipt)) :
  run_until_complete node h (submit_and_wait polls self f) = (o, h') ->
  exists t, h' = h ++ t /\ pipeline_trace polls node self h f [] t.
Proof.
  rewrite submit_and_wait_run.
  destruct (node h _) as [nonce|e] eqn:H1.
  2:{ intros [= _ <-]. eexists. split; [reflexivity|].
      exists 0%Z, 0%Z, {| gas := 0; chainId := 0 |}, [], 1%nat, 0%nat.
      simpl. shape. }
  destruct (node (h ++ _) eth_gasPrice) as [gp|e] eqn:H2.
  2:{ intros [= _ <-]. eexists. split; [reflexivity|].
      exists nonce, 0%Z, {| gas := 0; chainId := 0 |}, [], 2%nat, 0%nat.
      simpl. shape. }
  destruct (eth.abi_encodable f).
  2:{ intros [= _ <-]. eexists. split; [reflexivity|].
      exists nonce, gp, {| gas := 0; chainId := 0 |}, [], 2%nat, 0%nat.
      simpl. shape. }
  destruct (node _ (eth_estimateGas _ _ _)) as [g|e] eqn:H3.
  2:{ intros [= _ <-]. eexists. split; [reflexivity|].
      exists nonce, gp, {| gas := 0; chainId := 0 |}, [], 3%nat, 0%nat.
      simpl. shape. }
  destruct (node _ eth_chainId) as [ch|e] eqn:H4.
  2:{ intros [= _ <-]. eexists. split; [reflexivity|].
      exists nonce, gp, {| gas := g; chainId := 0 |}, [], 4%nat, 0%nat.
      simpl. shape. }
  cbv zeta.
  destruct (node _ (eth_sendRawTransaction _)) as [txh|e] eqn:H5.
  2:{ intros [= _ <-]. eexists. split; [reflexivity|].
      exists nonce, gp, {| gas := g; chainId := ch |}, [], 5%nat, 0%nat.
      simpl. shape. }
  destruct (run_until_complete node _ (eth.wait_for_transaction_receipt _ _))
    as [ow h6] eqn:H6.
  destruct (wait_trace _ _ _ _ _ _ H6) as (n & Hn & ->).
  intros Hr.
  exists (submission self f nonce gp {| gas := g; chainId := ch |}
          ++ replicate n (poll txh)).
  split.
  { destruct ow; injection Hr as _ <-; now rewrite <- !app_assoc. }
  exists nonce, gp, {| gas := g; chainId := ch |}, txh, 5%nat, n.
  rewrite app_nil_r. shape.
Qed.

Lemma inscribe_trace (h h' : list rpc) (block summary content : Py.str)
    (o : outcome InscribeResult.t) :
  run_until_complete node h (inscribe polls self block summary content)
  = (o, h') ->
  exists t,
    h' = h ++ t
    /\ (t = []
        \/ exists f last,
             (last = [] \/ last = [eth_call_totalCycles (_proxy self)])
             /\ pipeline_trace polls node self h f last t).
Proof.
  intros Hr.
  destruct (inscribe_local polls self block summary content)
    as [[e He]|(bt & encoded & Hs & Hb & Hc)].
  { rewrite He in Hr. injection Hr as _ <-. exists [].
    split; [now rewrite app_nil_r | now left]. }
  rewrite (inscribe_run _ _ _ _ _ _ _ _ _ Hs Hb Hc) in Hr.
  destruct (run_until_complete node h (submit_and_wait _ _ _))
    as [op h5] eqn:Hp.
  pose proof Hp as Hp'.
  apply submit_and_wait_trace in Hp' as (t & -> & Htr).
  destruct op as [[txh rc]|e].
  - destruct (submit_and_wait_returns _ _ _ _ _ _ _ _ Hp)
      as (nonce & gp & d & n & (H1 & H2 & _) & Hn & Ht & _).
    apply app_inv_head in Ht. subst t.
    exists ((submission self
               (inscribeCycle bt summary (hashlib.sha256 encoded)) nonce gp d
             ++ replicate (S n) (poll txh))
            ++ [eth_call_totalCycles (_proxy self)]).
    split.
    { destruct (node _ _); injection Hr as _ <-; now rewrite <- !app_assoc. }
    right. eexists _, [eth_call_totalCycles (_proxy self)].
    split; [now right|].
    exists nonce, gp, d, txh, 5%nat, (S n).
    rewrite <- app_assoc. shape.
  - injection Hr as _ <-. exists t. split; [reflexivity|].
    right. eexists _, []. split; [now left | exact Htr].
Qed.

Lemma attest_trace (h h' : list rpc) (proof_hash : Py.str) (valid : bool)
    (o : outcome AttestResult.t) :
  run_until_complete node h (attest polls self proof_hash valid) = (o, h') ->
  exists t,
    h' = h ++ t /\ (t = [] \/ exists f, pipeline_trace polls node self h f [] t).
Proof.
  intros Hr.
  destruct (Py.fromhex (Py.removeprefix proof_hash (Py.lit "0x")))
    as [ph_bytes|] eqn:Hp.
  2:{ rewrite (attest_rejects _ _ _ _ Hp) in Hr. injection Hr as _ <-.
      exists []. split; [now rewrite app_nil_r | now left]. }
  rewrite (attest_run _ _ _ _ _ _ _ Hp) in Hr.
  destruct (run_until_complete node h (submit_and_wait _ _ _))
    as [op h5] eqn:Hs.
  apply submit_and_wait_trace in Hs as (t & -> & Htr).
  exists t. split; [destruct op as [[? ?]|?]; now injection Hr as _ <-|].
  right. eauto.
Qed.

Lemma pipeline_trace_length (h : list rpc) (f : contract_function)
    (last t : list rpc) :
  pipeline_trace polls node self h f last t ->
  (length t <= polls + 5 + length last)%nat.
Proof.
  intros (nonce & gp & d & txh & k & n & -> & Hk & Hn & _).
  rewrite !length_app, length_take, length_replicate. simpl. lia.
Qed.



Lemma pipeline_trace_own (h : list rpc) (f : contract_function)
    (last t : list rpc) :
  pipeline_trace polls node self h f last t ->
  (last = [] \/ last = [eth_call_totalCycles (_proxy self)]) ->
  Forall (own self) t.
Proof.
  intros (nonce & gp & d & txh & k & n & -> & _) Hlast.
  apply Forall_app. split; [|apply Forall_app; split].
  - apply Forall_take. unfold submission. repeat constructor.
  - apply Forall_replicate. exact I.
  - destruct Hlast as [-> | ->]; repeat constructor.
Qed.

Lemma send_in_take_submission (f : contract_function)
    (nonce gas_price : Z) (d : TxDefaults) (k : nat) (raw : RawTransaction) :
  eth_sendRawTransaction raw ∈ take k (submission self f nonce gas_price d) ->
  raw = signed_tx self f nonce gas_price d /\ (5 <= k)%nat.
Proof.
  unfold submission.
  destruct k as [|[|[|[|[|k]]]]]; simpl; rewrite ?take_nil;
    rewrite ?elem_of_cons, ?elem_of_nil; intros Hin;
    repeat (destruct Hin as [Hin|Hin]; try discriminate Hin);
    try contradiction.
  injection Hin as ->. split; [reflexivity | lia].
Qed.

Lemma pipeline_trace_fresh (h : list rpc) (f : contract_function)
    (last t : list rpc) (raw : RawTransaction) :
  pipeline_trace polls node self h f last t ->
  (last = [] \/ last = [eth_call_totalCycles (_proxy self)]) ->
  eth_sendRawTransaction raw ∈ t ->
  node h (eth_getTransactionCount (eth.address (_account self)))
  = Return (nonce (params (payload raw)))
  /\ node (h ++ [eth_getTransactionCount (eth.address (_account self))])
       eth_gasPrice
     = Return (gasPrice (params (payload raw))).
Proof.
  intros (nonce & gp & d & txh & k & n & -> & Hk & _ & _ & H2 & H3) Hlast.
  rewrite !elem_of_app. intros [Hin|[Hin|Hin]].
  - apply send_in_take_submission in Hin as [-> Hk4]. simpl.
    split; [apply H2 | apply H3]; lia.
  - apply elem_of_replicate in Hin. destruct Hin as [Hin _]. discriminate.
  - destruct Hlast as [-> | ->].
    + now apply elem_of_nil in Hin.
    + apply list_elem_of_singleton in Hin. discriminate.
Qed.

End round_trips.

Lemma after_call_trace (polls : nat) (node : Node) (self : Custos)
    (h : list rpc) (c : call) :
  exists t,
    after_call polls node self h c = h ++ t
    /\ (t = []
        \/ exists f last,
             (last = [] \/ last = [eth_call_totalCycles (_proxy self)])
             /\ pipeline_trace polls node self h f last t).
Proof.
  destruct c as [block summary content|proof_hash valid]; simpl.
  - destruct (run_until_complete node h (inscribe _ _ _ _ _)) as [o h'] eqn:Hr.
    exact (inscribe_trace _ _ _ _ _ _ _ _ _ Hr).
  - destruct (run_until_complete node h (attest _ _ _ _)) as [o h'] eqn:Hr.
    destruct (attest_trace _ _ _ _ _ _ _ _ Hr) as (t & -> & [->|[f Htr]]).
    + exists []. split; [reflexivity | now left].
    + exists t. split; [reflexivity|]. right. exists f, []. auto.
Qed.




(** X12. Every round-trip of a call is about the client's own account and
    its own contract, every transaction it submits is signed with its own
    key, and carries the sequence number and the gas price the node gave at
    the first two round-trips of this very call: nothing is kept from an
    earlier call. *)
Theorem call_uses_fresh_sequence_number_and_gas_price
    (polls : nat) (node : Node) (self : Custos) (h : list rpc) (c : call) :
  exists t,
    after_call polls node self h c = h ++ t
    /\ Forall (own self) t
    /\ forall raw,
         eth_sendRawTransaction raw ∈ t ->
         node h (eth_getTransactionCount (eth.address (_account self)))
         = Return (nonce (params (payload raw)))
         /\ node (h ++ [eth_getTransactionCount
                          (eth.address (_account self))]) eth_gasPrice
            = Return (gasPrice (params (payload raw))).
Proof.
  destruct (after_call_trace polls node self h c)
    as (t & Ht & [->|(f & last & Hlast & Htr)]).
  - exists []. split; [exact Ht|]. split; [constructor|].
    intros raw Hin. now apply elem_of_nil in Hin.
  - exists t. split; [exact Ht|]. split.
    + exact (pipeline_trace_own _ _ _ _ _ _ _ Htr Hlast).
    + intros raw. exact (pipeline_trace_fresh _ _ _ _ _ _ _ _ Htr Hlast).
Qed.

(** X13. The cycle counter in a result is what [total_cycles] returns at
    the moment the receipt has come: the last round-trip of a returning
    [inscribe] is the one [total_cycles] makes, with the same answer. *)
Theorem inscribe_network_cycle_is_total_cycles
    (polls : nat) (node : Node) (h h' : list rpc) (self : Custos)
    (block summary content : Py.str) (r : InscribeResult.t) :
  run_until_complete node h (inscribe polls self block summary content)
  = (Return r, h') ->
  exists confirmed,
    h' = confirmed ++ [eth_call_totalCycles (_proxy self)]
    /\ run_until_complete node confirmed (total_cycles self)
       = (Return (InscribeResult.network_cycle r), h').
Proof.
  intros Hr.
  destruct (inscribe_returns _ _ _ _ _ _ _ _ _ Hr)
    as (bt & enc & nonce & gp & d & txh & n & rc & cycles
        & _ & _ & _ & _ & _ & _ & Hcy & -> & ->).
  exists (h ++ submission self
                 (inscribeCycle bt summary (hashlib.sha256 enc)) nonce gp d
            ++ replicate (S n) (poll txh)).
  split; [reflexivity|].
  unfold total_cycles, eth.totalCycles_call. cbn [run_until_complete].
  now rewrite Hcy.
Qed.

Lemma inscribe_network_cycle_witness :
  exists r h' confirmed,
    run_until_complete (sim_node 1) []
      (inscribe 3 agent (Py.lit "research") (Py.lit "summary")
         (Py.lit "content")) = (Return r, h')
    /\ run_until_complete (sim_node 1) confirmed (total_cycles agent)
       = (Return (InscribeResult.network_cycle r), h').
Proof.
  assert (exists r h',
            run_until_complete (sim_node 1) []
              (inscribe 3 agent (Py.lit "research") (Py.lit "summary")
                 (Py.lit "content")) = (Return r, h')) as (r & h' & Hr).
  { eexists _, _. vm_compute. reflexivity. }
  destruct (inscribe_network_cycle_is_total_cycles _ _ _ _ _ _ _ _ _ Hr)
    as (confirmed & _ & Htc).
  exists r, h', confirmed. split; [exact Hr | exact Htc].
Defined.

(** ** Calls made one after the other *)

Lemma attest_submits (polls : nat) (node : Node) (self : Custos)
    (h h' : list rpc) (proof_hash : Py.str) (valid : bool)
    (o : outcome AttestResult.t) :
  run_until_complete node h (attest polls self proof_hash valid) = (o, h') ->
  exists t, h' = h ++ t /\ submits_once node self h o t.
Proof.
  intros Hr.
  destruct (Py.fromhex (Py.removeprefix proof_hash (Py.lit "0x")))
    as [ph_bytes|] eqn:Hp.
  2:{ rewrite (attest_rejects _ _ _ _ Hp) in Hr. injection Hr as <- <-.
      exists []. split; [now rewrite app_nil_r|]. left.
      repeat split. discriminate. }
  rewrite (attest_run _ _ _ _ _ _ _ Hp) in Hr.
  destruct (run_until_complete node h (submit_and_wait _ _ _))
    as [op h5] eqn:Hs.
  destruct (submit_and_wait_submits _ _ _ _ _ _ _ Hs) as (t & -> & Hsub).
  exists t. destruct op as [[txh rc]|e]; injection Hr as <- <-;
    (split; [reflexivity|]).
  - destruct Hsub as [(_ & _ & Hno)|Hsub]; [|right; exact Hsub].
    destruct (Hno (txh, rc)). reflexivity.
  - destruct Hsub as [(Hsn & Hcs & _)|Hsub]; [|right; exact Hsub].
    left. repeat split; try assumption. discriminate.
Qed.

Lemma after_call_submits (polls : nat) (node : Node) (self : Custos)
    (n0 : Z) (h : list rpc) (c : call) :
  counts_submissions n0 node ->
  exists t,
    after_call polls node self h c = h ++ t
    /\ ((submitted_nonces t = [] /\ count_sends t = 0%nat)
        \/ (submitted_nonces t = [(n0 + Z.of_nat (count_sends h))%Z]
            /\ count_sends t = 1%nat)).
Proof.
  intros Hcount.
  assert (exists (o : outcome unit) t,
            after_call polls node self h c = h ++ t
            /\ submits_once node self h o t) as (o & t & Ht & Hsub).
  { destruct c as [block summary content|proof_hash valid]; simpl.
    - destruct (run_until_complete node h (inscribe _ _ _ _ _))
        as [o h'] eqn:Hr.
      destruct (inscribe_submits _ _ _ _ _ _ _ _ _ Hr) as (t & -> & Hsub).
      exists (Raise RuntimeError), t. split; [reflexivity|].
      destruct Hsub as [(Hn & Hc & _)|Hsub]; [|right; exact Hsub].
      left. repeat split; try assumption. discriminate.
    - destruct (run_until_complete node h (attest _ _ _ _)) as [o h'] eqn:Hr.
      destruct (attest_submits _ _ _ _ _ _ _ _ Hr) as (t & -> & Hsub).
      exists (Raise RuntimeError), t. split; [reflexivity|].
      destruct Hsub as [(Hn & Hc & _)|Hsub]; [|right; exact Hsub].
      left. repeat split; try assumption. discriminate. }
  exists t. split; [exact Ht|].
  destruct Hsub as [(Hn & Hc & _)|(n & Hq & Hn & Hc)]; [now left|].
  right. rewrite Hcount in Hq. injection Hq as <-. now split.
Qed.

(** X19. Against a node whose transaction count counts the submissions it
    has received, any calls of [inscribe] and [attest] made one after the
    other submit under consecutive sequence numbers, starting at the count
    of the node: none is used twice and none is skipped, whichever calls
    fail. *)
Theorem sequential_calls_submit_consecutive_sequence_numbers
    (polls : nat) (node : Node) (self : Custos) (n0 : Z) (cs : list call)
    (h : list rpc) :
  counts_submissions n0 node ->
  exists t,
    after_calls polls node self h cs = h ++ t
    /\ submitted_nonces t
       = (fun i => (n0 + Z.of_nat (count_sends h + i))%Z)
           <$> seq 0 (count_sends t)
    /\ NoDup (submitted_nonces t).
Proof.
  intros Hcount.
  assert (exists t,
            after_calls polls node self h cs = h ++ t
            /\ submitted_nonces t
               = (fun i => (n0 + Z.of_nat (count_sends h + i))%Z)
                   <$> seq 0 (count_sends t)) as (t & Ht & Hn).
  { revert h. induction cs as [|c cs IH]; intros h.
    - exists []. split; [symmetry; apply app_nil_r | reflexivity].
    - unfold after_calls. simpl.
      destruct (after_call_submits polls node self n0 h c Hcount)
        as (t1 & -> & Hc1).
      destruct (IH (h ++ t1)) as (t2 & Ht2 & Hn2).
      unfold after_calls in Ht2. rewrite Ht2.
      exists (t1 ++ t2). split; [now rewrite app_assoc|].
      rewrite submitted_nonces_app, !count_sends_app, Hn2, count_sends_app.
      destruct Hc1 as [[-> ->]|[-> ->]]; simpl.
      + now rewrite Nat.add_0_r.
      + rewrite Nat.add_0_r. f_equal.
        rewrite <- (fmap_S_seq 0), <- list_fmap_compose.
        apply list_fmap_ext. intros _ i _. simpl. f_equal. lia. }
  exists t. split; [exact Ht|]. split; [exact Hn|].
  rewrite Hn. apply NoDup_fmap_2; [|apply NoDup_seq].
  intros i j Hij. lia.
Qed.

Lemma sequential_calls_witness :
  exists t,
    after_calls 3 (sim_node 1) agent []
      [ Inscribe (Py.lit "research") (Py.lit "summary") (Py.lit "content");
        Attest (Py.lit "0xzz") true;
        Attest (Py.lit "0xabcd") true ] = [] ++ t
    /\ NoDup (submitted_nonces t).
Proof.
  destruct (sequential_calls_submit_consecutive_sequence_numbers
              3 (sim_node 1) agent 5
              [ Inscribe (Py.lit "research") (Py.lit "summary")
                  (Py.lit "content");
                Attest (Py.lit "0xzz") true;
                Attest (Py.lit "0xabcd") true ] []
              (fun _ _ => eq_refl)) as (t & Ht & _ & Hnd).
  exists t. split; [exact Ht | exact Hnd].
Defined.

(** ** The examples *)

(** [json.dumps] of a dict with an awkward string, an [int] of each sign and
    [None], against the text Python prints for it. *)
Example dumps_against_python :
  json.dumps
    [ (Py.lit "task",
       json.Str [97; 34; 92; 10; 233; 128512; 127; 55296; 31; 9; 122; 126; 32]);
      (Py.lit "n", json.Int 0);
      (Py.lit "m", json.Int (-1203));
      (Py.lit "x", json.Null) ]
  = [
      123; 34; 116; 97; 115; 107; 34; 58; 32; 34; 97; 92; 34; 92; 92;
      92; 110; 92; 117; 48; 48; 101; 57; 92; 117; 100; 56; 51; 100;
      92; 117; 100; 101; 48; 48; 92; 117; 48; 48; 55; 102; 92; 117;
      100; 56; 48; 48; 92; 117; 48; 48; 49; 102; 92; 116; 122; 126;
      32; 34; 44; 32; 34; 110; 34; 58; 32; 48; 44; 32; 34; 109; 34;
      58; 32; 45; 49; 50; 48; 51; 44; 32; 34; 120; 34; 58; 32; 110;
      117; 108; 108; 125 ].
Proof. vm_compute. reflexivity. Qed.

Example dumps_empty : json.dumps [] = Py.lit "{}".
Proof. reflexivity. Qed.

Lemma hexdigit_printable (v : N) : v < 16 -> printable (Py.hexdigit v).
Proof. intros Hv. unfold printable, Py.hexdigit. compare_code_points. Qed.

Lemma land_15 (n : N) : N.land n 15 < 16.
Proof.
  change 15 with (N.ones 4). rewrite N.land_ones.
  apply N.mod_lt. discriminate.
Qed.

Lemma u_escape_printable (n : N) : Forall printable (json.u_escape n).
Proof.
  unfold json.u_escape, json.hex4.
  repeat constructor; try (unfold printable; lia);
    apply hexdigit_printable, land_15.
Qed.

Lemma escape_char_printable (c : N) : Forall printable (json.escape_char c).
Proof.
  unfold json.escape_char.
  destruct (c =? 92); [repeat constructor; unfold printable; lia|].
  destruct (c =? 34); [repeat constructor; unfold printable; lia|].
  destruct ((32 <=? c) && (c <=? 126)) eqn:Hp.
  { apply andb_true_iff in Hp as [H1 H2].
    apply N.leb_le in H1, H2. repeat constructor; assumption. }
  destruct (c =? 8); [repeat constructor; unfold printable; lia|].
  destruct (c =? 12); [repeat constructor; unfold printable; lia|].
  destruct (c =? 10); [repeat constructor; unfold printable; lia|].
  destruct (c =? 13); [repeat constructor; unfold printable; lia|].
  destruct (c =? 9); [repeat constructor; unfold printable; lia|].
  destruct (c <? 65536); [apply u_escape_printable|].
  apply Forall_app. split; apply u_escape_printable.
Qed.

Lemma encode_basestring_ascii_printable (s : Py.str) :
  Forall printable (json.encode_basestring_ascii s).
Proof.
  unfold json.encode_basestring_ascii.
  constructor; [unfold printable; lia|].
  apply Forall_app. split; [|repeat constructor; unfold printable; lia].
  induction s as [|c s IH]; [constructor|].
  simpl. apply Forall_app. split; [apply escape_char_printable | exact IH].
Qed.

Lemma digits_printable (d : Decimal.uint) : Forall printable (json.digits d).
Proof.
  induction d; simpl; constructor; try assumption; unfold printable; lia.
Qed.

Lemma dumps_value_printable (v : json.value) :
  Forall printable (json.dumps_value v).
Proof.
  destruct v as [|z|s]; simpl.
  - repeat constructor; unfold printable; simpl; lia.
  - unfold json.repr_int. destruct (Z.to_int z).
    + apply digits_printable.
    + constructor; [unfold printable; lia | apply digits_printable].
  - apply encode_basestring_ascii_printable.
Qed.

Lemma join_items_printable (items : list Py.str) :
  Forall (Forall printable) items -> Forall printable (json.join_items items).
Proof.
  induction 1 as [|x rest Hx Hrest IH]; [constructor|].
  destruct rest as [|y rest]; [exact Hx|].
  change (json.join_items (x :: y :: rest))
    with (x ++ Py.lit ", " ++ json.join_items (y :: rest)).
  apply Forall_app. split; [exact Hx|].
  apply Forall_app. split; [|exact IH].
  repeat constructor; unfold printable; simpl; lia.
Qed.

Lemma dumps_printable (d : list (Py.str * json.value)) :
  Forall printable (json.dumps d).
Proof.
  unfold json.dumps.
  apply Forall_app. split; [repeat constructor; unfold printable; simpl; lia|].
  apply Forall_app. split; [|repeat constructor; unfold printable; simpl; lia].
  apply join_items_printable. apply Forall_fmap, Forall_forall.
  intros [k v] _. unfold json.dumps_item. cbn [fst snd].
  apply Forall_app. split; [apply encode_basestring_ascii_printable|].
  apply Forall_app. split; [|apply dumps_value_printable].
  repeat constructor; unfold printable; simpl; lia.
Qed.

Lemma encode_printable (s : Py.str) :
  Forall printable s -> Py.encode s = Some (Py.byte_of_N <$> s).
Proof.
  induction 1 as [|c s Hc _ IH]; [reflexivity|].
  simpl. rewrite IH. unfold Py.utf8_char.
  replace (c <? 128) with true; [reflexivity|].
  symmetry. apply N.ltb_lt. unfold printable in Hc. lia.
Qed.

(** X16. What [json.dumps] returns holds printable ASCII only, whatever
    the strings of the dict hold, lone surrogates and characters outside the
    basic plane included; so it can always be encoded, one byte a character,
    and the digest of such content is always computed. *)
Theorem json_content_is_always_encodable (d : list (Py.str * json.value)) :
  Forall printable (json.dumps d)
  /\ Py.encode (json.dumps d) = Some (Py.byte_of_N <$> json.dumps d)
  /\ content_hash_of (json.dumps d)
     = Ret (hashlib.sha256 (Py.byte_of_N <$> json.dumps d)).
Proof.
  pose proof (dumps_printable d) as Hp.
  pose proof (encode_printable _ Hp) as He.
  split; [exact Hp|]. split; [exact He|].
  exact (content_hash_of_encoded _ _ He).
Qed.

(** The contract function [inscribe] builds and submits, with the code of
    the category. *)
Lemma inscribe_carries_code
    (polls : nat) (node : Node) (self : Custos) (h t : list rpc)
    (block summary content : Py.str) (block_type : Z) (encoded : Py.bytes)
    (o : outcome InscribeResult.t) :
  (length summary <= 140)%nat ->
  BLOCK_TYPE_MAP !! block = Some block_type ->
  Py.encode content = Some encoded ->
  run_until_complete node h (inscribe polls self block summary content)
  = (o, h ++ t) ->
  Forall (carries (inscribeCycle block_type summary (hashlib.sha256 encoded)))
    t.
Proof.
  intros Hs Hb Hc Hr.
  rewrite (inscribe_run _ _ _ _ _ _ _ _ _ Hs Hb Hc) in Hr.
  destruct (run_until_complete node h (submit_and_wait _ _ _))
    as [op h5] eqn:Hp.
  destruct (run_extends _ _ _ _ _ Hp) as [t5 ->].
  pose proof (submit_and_wait_carries _ _ _ _ _ _ _ Hp) as Hall.
  destruct op as [[txh rc]|e].
  - destruct (node _ _) as [cycles|e]; injection Hr as _ Ht;
      rewrite <- app_assoc in Ht; apply app_inv_head in Ht; subst t;
      (apply Forall_app; split; [exact Hall | repeat constructor]).
  - injection Hr as _ Ht. apply app_inv_head in Ht. now subst t.
Qed.

Section example_calls.

Variable polls : nat.
Variable node : Node.
Variable custos : Custos.

(** What the examples inscribe for an output [text] and the dict [d]: the
    call gets past the local checks, asks the node for the sequence number,
    and whatever it builds or submits is [inscribeCycle] for the category
    research, the first 140 characters of the text and the digest of the
    JSON text. *)
Lemma example_inscribe (h : list rpc) (text : Py.str)
    (d : list (Py.str * json.value)) :
  exists o t,
    inscribe_sync polls false node h custos (Py.lit "research")
      (take 140 text) (json.dumps d)
    = (o, h ++ eth_getTransactionCount (eth.address (_account custos)) :: t)
    /\ Forall
         (carries
            (inscribeCycle 1 (take 140 text)
               (hashlib.sha256 (Py.byte_of_N <$> json.dumps d))))
         (eth_getTransactionCount (eth.address (_account custos)) :: t).
Proof.
  assert (length (take 140 text) <= 140)%nat as Hs
    by (rewrite length_take; lia).
  assert (BLOCK_TYPE_MAP !! Py.lit "research" = Some 1%Z) as Hb
    by (vm_compute; reflexivity).
  destruct (json_content_is_always_encodable d) as (_ & Hc & _).
  destruct (inscribe_reaches_node polls node h custos _ _ _ _ _ Hs Hb Hc)
    as (o & t & Hr).
  exists o, t. unfold inscribe_sync, asyncio.run. split; [exact Hr|].
  exact (inscribe_carries_code _ _ _ _ _ _ _ _ _ _ _ Hs Hb Hc Hr).
Qed.

(** X17. [inscribe_node] of the LangGraph example never fails at the local
    checks of [inscribe], whatever the state holds: it reaches the node, what
    it has built or submitted is the inscription of the first 140 characters
    of the result and of the digest of the JSON text, and when it returns,
    it returns the state it was given. *)
Theorem inscribe_node_passes_local_checks
    (Message : Type) (h : list rpc) (state : AgentState Message) :
  let content :=
    json.dumps
      [ (Py.lit "task", json.Str (task Message state));
        (Py.lit "result", json.Str (result Message state));
        (Py.lit "messages",
         json.Int (Z.of_nat (length (messages Message state)))) ] in
  exists o t,
    inscribe_node polls Message false node h custos state
    = (o, h ++ eth_getTransactionCount (eth.address (_account custos)) :: t)
    /\ Forall
         (carries
            (inscribeCycle 1 (take 140 (result Message state))
               (hashlib.sha256 (Py.byte_of_N <$> content))))
         (eth_getTransactionCount (eth.address (_account custos)) :: t)
    /\ forall state', o = Return state' -> state' = state.
Proof.
  intros content. unfold inscribe_node. fold content.
  destruct (example_inscribe h (result Message state)
              [ (Py.lit "task", json.Str (task Message state));
                (Py.lit "result", json.Str (result Message state));
                (Py.lit "messages",
                 json.Int (Z.of_nat (length (messages Message state)))) ])
    as (o & t & Hr & Hall).
  fold content in Hr, Hall. rewrite Hr.
  destruct o as [r|e].
  - exists (Return state), t. split; [reflexivity|]. split; [exact Hall|].
    now intros state' [= <-].
  - exists (Raise e), t. split; [reflexivity|]. split; [exact Hall|].
    discriminate.
Qed.

(** X18. The inscription of the CrewAI example never fails at the local
    checks of [inscribe], whatever the crew has written: it reaches the node,
    and what it has built or submitted is the inscription of the first 140
    characters of the output and of the digest of the JSON text. *)
Theorem crew_inscribe_passes_local_checks (h : list rpc) (raw : Py.str) :
  let content :=
    json.dumps
      [ (Py.lit "crew", json.Str (Py.lit "ai-accountability-research"));
        (Py.lit "tasks", json.Int 2);
        (Py.lit "output", json.Str raw) ] in
  exists o t,
    crew_inscribe polls false node h custos raw
    = (o, h ++ eth_getTransactionCount (eth.address (_account custos)) :: t)
    /\ Forall
         (carries
            (inscribeCycle 1 (take 140 raw)
               (hashlib.sha256 (Py.byte_of_N <$> content))))
         (eth_getTransactionCount (eth.address (_account custos)) :: t).
Proof.
  intros content. unfold crew_inscribe.
  exact (example_inscribe h raw _).
Qed.

End example_calls.
